(** * Verification of conda/gateways/connection/adapters/sftp.py

    A shallow embedding of the SFTP transport adapter: the status-code
    extractor [get_status_code_from_code_response], [build_response],
    [dispatch_hook] (as requests implements it) and the [SFTPAdapter]
    methods [send], [retr], [list], [stor], [nlst], [close].

    Python text is modelled as [string] (ASCII characters); Python
    exceptions as the inductive [exc]; effects (the adapter's [self.conn]
    attribute, opened SFTP sessions, calls to [close()] and log records)
    as explicit state passing in a state/exception monad [M]. *)

From Stdlib Require Import String Ascii Strings.Byte List ZArith Bool Lia.
Import ListNotations.
Open Scope string_scope.

(** ** Python values used by the adapter *)

(** Exceptions that can be raised along the adapter's paths. *)
Inductive exc : Type :=
| KeyError (key : string)           (* dict lookup of a missing key *)
| IndexError                        (* sequence index out of range *)
| TypeError                         (* e.g. subscripting [None] *)
| ValueError (arg : string)         (* int() of a non-integer text *)
| AttributeError (attr : string)    (* attribute never assigned *)
| SystemExit (msg : string)         (* raise SystemExit(msg) *)
| OSError (errno : option Z)        (* OSError / IOError and subclasses *)
| SessionError (msg : string).      (* session-layer errors that are not
                                       OSError, e.g. paramiko.SSHException *)

(** The Python exception classes named in [except] clauses. *)
Inductive exc_class : Type :=
| CBaseException | CException | CLookupError | CKeyError | CIndexError
| CValueError | COSError | CSystemExit.

(** [isinstance(e, cls)] following Python's built-in hierarchy:
    SystemExit derives from BaseException only; the others from Exception. *)
Definition isinstance (e : exc) (cls : exc_class) : bool :=
  match cls, e with
  | CBaseException, _ => true
  | CException, SystemExit _ => false
  | CException, _ => true
  | CLookupError, (KeyError _ | IndexError) => true
  | CKeyError, KeyError _ => true
  | CIndexError, IndexError => true
  | CValueError, ValueError _ => true
  | COSError, OSError _ => true
  | CSystemExit, SystemExit _ => true
  | _, _ => false
  end.

(** Arguments of a logging call. *)
Inductive log_arg : Type :=
| AStr (s : string)
| AInt (z : Z)
| ANone.

Inductive log_level : Type := WARNING.

(** One call [log.warning(msg, *args)] (or its alias [log.warn]). *)
Record log_record : Type := LogRecord {
  lr_level : log_level;
  lr_msg : string;
  lr_args : list log_arg
}.

(** An open [pysftp.Connection]: the arguments it was built from and a
    serial number identifying the session. *)
Record conn : Type := Conn {
  conn_id : nat;
  conn_host : option string;
  conn_port : Z;
  conn_username : option string;
  conn_password : option string
}.

(** The mutable state the adapter code touches. *)
Record world : Type := World {
  w_conn : option conn;        (* the attribute [self.conn] of the adapter *)
  w_opened : list conn;        (* sessions opened so far, newest first *)
  w_closed : list nat;         (* [close()] calls on sessions, newest first *)
  w_log : list log_record      (* log records emitted, oldest first *)
}.

(** ** A state and exception monad *)

Inductive res (A : Type) : Type :=
| Ok (a : A)
| Raise (e : exc).
Arguments Ok {A} a.
Arguments Raise {A} e.

Definition M (A : Type) : Type := world -> res A * world.

Definition ret {A} (a : A) : M A := fun w => (Ok a, w).

Definition bind {A B} (m : M A) (k : A -> M B) : M B :=
  fun w => match m w with
           | (Ok a, w') => k a w'
           | (Raise e, w') => (Raise e, w')
           end.

Definition raise {A} (e : exc) : M A := fun w => (Raise e, w).

Notation "x <- m ;; k" := (bind m (fun x => k))
  (at level 61, m at next level, right associativity).
Notation "m ;;; k" := (bind m (fun _ => k))
  (at level 61, right associativity).

(** [try: m except <catch>: h] *)
Definition try_except {A} (m : M A) (catch : exc -> bool) (h : exc -> M A) : M A :=
  fun w => match m w with
           | (Raise e, w') => if catch e then h e w' else (Raise e, w')
           | r => r
           end.

Definition log_warning (msg : string) (args : list log_arg) : M unit :=
  fun w => (Ok tt, {| w_conn := w_conn w; w_opened := w_opened w;
                      w_closed := w_closed w;
                      w_log := w_log w ++ [LogRecord WARNING msg args] |}).

(** ** Python string and list primitives *)

Definition is_space (c : ascii) : bool :=
  let n := nat_of_ascii c in
  (n =? 32)%nat || ((9 <=? n)%nat && (n <=? 13)%nat)
  || ((28 <=? n)%nat && (n <=? 31)%nat).

Definition is_digit (c : ascii) : bool :=
  let n := nat_of_ascii c in (48 <=? n)%nat && (n <=? 57)%nat.

Definition digit_value (c : ascii) : Z := Z.of_nat (nat_of_ascii c - 48).

(** [s.split(sep)] for a one-character separator. *)
Fixpoint split_on_go (sep : ascii) (s cur : string) : list string :=
  match s with
  | EmptyString => [cur]
  | String c s' =>
      if Ascii.eqb c sep then cur :: split_on_go sep s' EmptyString
      else split_on_go sep s' (cur ++ String c EmptyString)
  end.

Definition py_split_on (sep : ascii) (s : string) : list string :=
  split_on_go sep s EmptyString.

(** [s.split()]: runs of whitespace separate, no empty fields. *)
Fixpoint split_ws_go (s cur : string) : list string :=
  match s with
  | EmptyString => match cur with EmptyString => [] | _ => [cur] end
  | String c s' =>
      if is_space c then
        match cur with
        | EmptyString => split_ws_go s' EmptyString
        | _ => cur :: split_ws_go s' EmptyString
        end
      else split_ws_go s' (cur ++ String c EmptyString)
  end.

Definition py_split_ws (s : string) : list string := split_ws_go s EmptyString.

(** [s[:n]] *)
Fixpoint py_slice_to (n : nat) (s : string) : string :=
  match n, s with
  | O, _ => EmptyString
  | _, EmptyString => EmptyString
  | S n', String c s' => String c (py_slice_to n' s')
  end.

(** The whitespace int() skips around the literal of an ASCII [str]:
    CPython's [Py_ISSPACE], tab, line feed, vertical tab, form feed,
    carriage return and space; unlike [str.split()], not 28 to 31. *)
Definition is_int_space (c : ascii) : bool :=
  let n := nat_of_ascii c in
  (n =? 32)%nat || ((9 <=? n)%nat && (n <=? 13)%nat).

Fixpoint lstrip_list (l : list ascii) : list ascii :=
  match l with
  | c :: l' => if is_int_space c then lstrip_list l' else l
  | [] => []
  end.

(** The text int() parses once the surrounding whitespace is skipped. *)
Definition int_strip (s : string) : string :=
  string_of_list_ascii
    (rev (lstrip_list (rev (lstrip_list (list_ascii_of_string s))))).

(** Decimal digits with single underscores between digits, as int()
    accepts them; [acc] is the value of the digits read so far. *)
Fixpoint parse_digits (s : string) (acc : Z) : option Z :=
  match s with
  | EmptyString => Some acc
  | String c s' =>
      if is_digit c then parse_digits s' (acc * 10 + digit_value c)
      else if Ascii.eqb c "_" then
        match s' with
        | String d s'' =>
            if is_digit d then parse_digits s'' (acc * 10 + digit_value d)
            else None
        | EmptyString => None
        end
      else None
  end.

Definition parse_unsigned (s : string) : option Z :=
  match s with
  | String c s' => if is_digit c then parse_digits s' (digit_value c) else None
  | EmptyString => None
  end.

(** The value of Python 3's [int(s)] for an ASCII [str] argument (base 10):
    skipped whitespace, an optional sign, digits with single underscores
    between them; [None] when int() raises ValueError. *)
Definition py_int_opt (s : string) : option Z :=
  match int_strip s with
  | String "-" t => option_map Z.opp (parse_unsigned t)
  | String "+" t => parse_unsigned t
  | t => parse_unsigned t
  end.

Definition py_int (s : string) : M Z :=
  match py_int_opt s with
  | Some z => ret z
  | None => raise (ValueError s)
  end.

(** [xs[-1]] and [xs[0]] *)
Definition py_last {A} (xs : list A) : M A :=
  match rev xs with
  | x :: _ => ret x
  | [] => raise IndexError
  end.

Definition py_first {A} (xs : list A) : M A :=
  match xs with
  | x :: _ => ret x
  | [] => raise IndexError
  end.

Definition nonempty (s : string) : bool :=
  match s with EmptyString => false | _ => true end.

(** ** [get_status_code_from_code_response] *)

Definition inconsistent_msg : string :=
  "FTP response status code seems to be inconsistent." ++ String "010" EmptyString
  ++ "Code received: %s, extracted: %s and %s".

Definition get_status_code_from_code_response (code : string) : M Z :=
  last_valid_line_from_code <-
    py_last (filter nonempty (py_split_on "010" code)) ;;
  tok <- py_first (py_split_ws last_valid_line_from_code) ;;
  status_code_from_last_line <- py_int tok ;;
  status_code_from_first_digits <- py_int (py_slice_to 3 code) ;;
  (if negb (Z.eqb status_code_from_last_line status_code_from_first_digits)
   then log_warning inconsistent_msg
          [AStr code; AInt status_code_from_last_line;
           AInt status_code_from_first_digits]
   else ret tt) ;;;
  ret status_code_from_last_line.

(** The two readings of the status code, as pure functions: [None] where
    the corresponding Python expression raises. *)
Definition last_valid_line (code : string) : option string :=
  hd_error (rev (filter nonempty (py_split_on "010" code))).

Definition status_from_last_line (code : string) : option Z :=
  match last_valid_line code with
  | Some l => match py_split_ws l with
              | tok :: _ => py_int_opt tok
              | [] => None
              end
  | None => None
  end.

Definition status_from_first_digits (code : string) : option Z :=
  py_int_opt (py_slice_to 3 code).

Definition w0 : world := World None [] [] [].

Example status_200 :
  fst (get_status_code_from_code_response "200 Welcome" w0) = Ok 200%Z.
Proof. vm_compute. reflexivity. Qed.

Example status_226 :
  fst (get_status_code_from_code_response
         ("226-File successfully transferred" ++ String "010" "226 0.000 seconds") w0)
  = Ok 226%Z.
Proof. vm_compute. reflexivity. Qed.

Example status_conflict :
  get_status_code_from_code_response
    ("200-File successfully transferred" ++ String "010" "226 0.000 seconds") w0
  = (Ok 226%Z, World None [] []
       [LogRecord WARNING inconsistent_msg
          [AStr ("200-File successfully transferred" ++ String "010" "226 0.000 seconds");
           AInt 226; AInt 200]]).
Proof. vm_compute. reflexivity. Qed.

Example py_int_samples :
  py_int_opt " -1_0 " = Some (-10)%Z /\ py_int_opt "1__0" = None
  /\ py_int_opt "+" = None /\ py_int_opt "007" = Some 7%Z.
Proof. vm_compute. repeat split. Qed.

(** int() skips only its own whitespace: the separators 28 to 31, which
    [str.split()] treats as whitespace, make it raise. *)
Example py_int_control_chars :
  py_int_opt (String "028" "20") = None /\ py_int_opt ("20" ++ String "028" "") = None
  /\ py_int_opt (" " ++ String "009" "20" ++ String "010" (String "011" "")) = Some 20%Z
  /\ py_split_ws (String "028" "200 x") = ["200"; "x"]
  /\ fst (get_status_code_from_code_response (String "028" "200 x") w0)
     = Raise (ValueError (String "028" "20")).
Proof. vm_compute. repeat split. Qed.

(** ** Requests, responses and the adapter *)

(** [requests.Request]: the URL text, the method name and the hook table;
    a hook is named by the callable registered under it. *)
Record request : Type := Request {
  req_url : string;
  req_method : string;
  req_hooks : list (string * list string)
}.

(** The fields of [urlparse(url)] that [send] reads; absent components
    are [None], as the parser returns them. *)
Record parsed_url : Type := ParsedUrl {
  pu_hostname : option string;
  pu_port : option Z;
  pu_username : option string;
  pu_password : option string;
  pu_path : option string
}.

(** [io.BytesIO]: the buffer contents and the stream position. *)
Record bytes_io : Type := BytesIO {
  bio_buf : list byte;
  bio_pos : nat
}.

Definition bytes_io_new : bytes_io := BytesIO [] 0.

(** [data.seek(pos)] *)
Definition bio_seek (pos : nat) (b : bytes_io) : bytes_io :=
  BytesIO (bio_buf b) pos.

(** [data.write(bs)] at the current position of a buffer positioned at
    its end, as [getfo] writes into it. *)
Definition bio_write (bs : list byte) (b : bytes_io) : bytes_io :=
  BytesIO (bio_buf b ++ bs) (bio_pos b + length bs).

(** The fields of [requests.Response] that [build_response] fills in. *)
Record response : Type := Response {
  resp_encoding : option string;
  resp_raw : bytes_io;
  resp_url : string;
  resp_request : request;
  resp_status_code : Z
}.

(** [d.get(k)] on a dict with string keys. *)
Fixpoint lookup_str {A} (k : string) (d : list (string * A)) : option A :=
  match d with
  | [] => None
  | (k', v) :: d' => if String.eqb k k' then Some v else lookup_str k d'
  end.

(** The handlers of the verb table. *)
Inductive handler : Type := Hlist | Hretr | Hstor | Hnlst.

(** [self.func_table] as built by [SFTPAdapter.__init__]. *)
Definition func_table : list (string * handler) :=
  [("LIST", Hlist); ("RETR", Hretr); ("STOR", Hstor); ("NLST", Hnlst);
   ("GET", Hretr)].

(** [self.func_table[method]] *)
Definition func_table_lookup (method : string) : M handler :=
  match lookup_str method func_table with
  | Some h => ret h
  | None => raise (KeyError method)
  end.

(** [path[0]] for [path] a [str] or [None]. *)
Definition py_str_index0 (path : option string) : M ascii :=
  match path with
  | None => raise TypeError
  | Some EmptyString => raise IndexError
  | Some (String c _) => ret c
  end.

(** [path[1:]] *)
Definition py_slice_from1 (s : string) : string :=
  match s with
  | EmptyString => EmptyString
  | String _ s' => s'
  end.

(** [parsed.port or 22]: [None] and [0] are both false. *)
Definition port_or_22 (port : option Z) : Z :=
  match port with
  | None => 22
  | Some p => if Z.eqb p 0 then 22 else p
  end.

Definition get_conn : M conn :=
  fun w => match w_conn w with
           | Some c => (Ok c, w)
           | None => (Raise (AttributeError "conn"), w)
           end.

(** [self.conn = c] *)
Definition set_conn (c : conn) : M unit :=
  fun w => (Ok tt, {| w_conn := Some c; w_opened := w_opened w;
                      w_closed := w_closed w; w_log := w_log w |}).

(** [c.close()] *)
Definition conn_close (c : conn) : M unit :=
  fun w => (Ok tt, {| w_conn := w_conn w; w_opened := w_opened w;
                      w_closed := conn_id c :: w_closed w; w_log := w_log w |}).

(** [SFTPAdapter.close]: a no-op. *)
Definition adapter_close : M unit := ret tt.

Definition not_implemented (verb : string) : string :=
  verb ++ " not implemented yet".

(** The adapter's methods and the module-level helpers of sftp.py. *)
Module SFTPAdapter.

Section Adapter.

(** [urlparse] of conda.common.url (not part of this file's source). *)
Variable urlparse : string -> parsed_url.

(** The SFTP session layer (pysftp): [Connection(host, port=..., username=...,
    password=...)] fails with [Some e] or succeeds with [None]; [getfo(path, fo)]
    yields the remote file's bytes or raises. *)
Variable sftp_connect : option string -> Z -> option string -> option string -> option exc.
Variable sftp_getfo : conn -> string -> res (list byte).

(** The callables registered as hooks, by name: a hook returns a
    replacement response, [None], or raises. *)
Variable run_hook : string -> response -> res (option response).

(** [pysftp.Connection(...)]: a new session, numbered by the sessions
    opened before it. *)
Definition open_conn (host : option string) (port : Z)
    (username password : option string) : M conn :=
  fun w => match sftp_connect host port username password with
           | Some e => (Raise e, w)
           | None =>
               let c := Conn (length (w_opened w)) host port username password in
               (Ok c, {| w_conn := w_conn w; w_opened := c :: w_opened w;
                         w_closed := w_closed w; w_log := w_log w |})
           end.

(** [self.conn.getfo(path, data)] *)
Definition getfo (c : conn) (path : string) (data : bytes_io) : M bytes_io :=
  match sftp_getfo c path with
  | Ok bs => ret (bio_write bs data)
  | Raise e => raise e
  end.

(** requests' [dispatch_hook]: every hook in turn; a non-[None] result
    replaces the hook data. *)
Fixpoint run_hooks (hooks : list string) (hook_data : response) : M response :=
  match hooks with
  | [] => ret hook_data
  | h :: hs =>
      match run_hook h hook_data with
      | Ok (Some d) => run_hooks hs d
      | Ok None => run_hooks hs hook_data
      | Raise e => raise e
      end
  end.

Definition dispatch_hook (key : string) (hooks : list (string * list string))
    (hook_data : response) : M response :=
  match lookup_str key hooks with
  | Some hs => run_hooks hs hook_data
  | None => ret hook_data
  end.

Definition build_response (request : request) (data : bytes_io) (code : string)
    (encoding : option string) : M response :=
  status_code <- get_status_code_from_code_response code ;;
  let response := {| resp_encoding := encoding; resp_raw := data;
                     resp_url := req_url request; resp_request := request;
                     resp_status_code := status_code |} in
  let response := {| resp_encoding := resp_encoding response;
                     resp_raw := bio_seek 0 (resp_raw response);
                     resp_url := resp_url response;
                     resp_request := resp_request response;
                     resp_status_code := resp_status_code response |} in
  dispatch_hook "response" (req_hooks request) response.

Definition build_binary_response (request : request) (data : bytes_io)
    (code : string) : M response :=
  build_response request data code None.

Definition get_failed_msg : string := "Failed to GET file '%s', errno = %d".

Definition errno_arg (e : exc) : log_arg :=
  match e with
  | OSError (Some n) => AInt n
  | _ => ANone
  end.

(** The body of the [try] in [retr]. *)
Definition retr_try (path : string) (request : request) : M (option response) :=
  c <- get_conn ;;
  data <- getfo c path bytes_io_new ;;
  response <- build_binary_response request data "226" ;;
  ret (Some response).

Definition retr (path : string) (request : request) : M (option response) :=
  response <- try_except (retr_try path request)
                (fun e => isinstance e COSError)
                (fun e => log_warning get_failed_msg [AStr path; errno_arg e] ;;;
                          ret None) ;;
  c <- get_conn ;;
  conn_close c ;;;
  ret response.

Definition list (path : string) (request : request) : M (option response) :=
  raise (SystemExit (not_implemented "LIST")).

Definition stor (path : string) (request : request) : M (option response) :=
  raise (SystemExit (not_implemented "STOR")).

Definition nlst (path : string) (request : request) : M (option response) :=
  raise (SystemExit (not_implemented "NLST")).

Definition call_handler (h : handler) : string -> request -> M (option response) :=
  match h with
  | Hlist => list
  | Hretr => retr
  | Hstor => stor
  | Hnlst => nlst
  end.

Definition send (request : request) : M (option response) :=
  let parsed := urlparse (req_url request) in
  c0 <- py_str_index0 (pu_path parsed) ;;
  let path := match pu_path parsed with Some p => p | None => EmptyString end in
  let path := if Ascii.eqb c0 "/" then py_slice_from1 path else path in
  let port := port_or_22 (pu_port parsed) in
  c <- open_conn (pu_hostname parsed) port (pu_username parsed) (pu_password parsed) ;;
  set_conn c ;;;
  h <- func_table_lookup (req_method request) ;;
  resp <- call_handler h path request ;;
  ret resp.

End Adapter.

End SFTPAdapter.

(** ** Lemmas on the string primitives *)

(** [forallb] over the characters of a string. *)
Fixpoint str_forallb (f : ascii -> bool) (s : string) : bool :=
  match s with
  | EmptyString => true
  | String c s' => f c && str_forallb f s'
  end.

Definition no_newline (s : string) : bool :=
  str_forallb (fun c => negb (Ascii.eqb c "010")) s.

Definition all_newlines (s : string) : bool :=
  str_forallb (fun c => Ascii.eqb c "010") s.

(** A three-character status code made of decimal digits, and its value. *)
Definition three_digit_code (d : string) : bool :=
  match d with
  | String c1 (String c2 (String c3 EmptyString)) =>
      is_digit c1 && is_digit c2 && is_digit c3
  | _ => false
  end.

Definition code_value (d : string) : Z :=
  match d with
  | String c1 (String c2 (String c3 _)) =>
      digit_value c1 * 100 + digit_value c2 * 10 + digit_value c3
  | _ => 0
  end.

Lemma str_app_assoc (a b c : string) : (a ++ b) ++ c = a ++ (b ++ c).
Proof. induction a as [|x a IH]; simpl; [reflexivity | now rewrite IH]. Qed.

Lemma str_app_nil_r (a : string) : a ++ EmptyString = a.
Proof. induction a as [|x a IH]; simpl; [reflexivity | now rewrite IH]. Qed.

Lemma split_on_go_app_sep (sep : ascii) (p q cur : string) :
  split_on_go sep (p ++ String sep q) cur
  = (split_on_go sep p cur ++ split_on_go sep q EmptyString)%list.
Proof.
  revert cur; induction p as [|c p IH]; intro cur; simpl.
  - now rewrite Ascii.eqb_refl.
  - destruct (Ascii.eqb c sep); simpl; now rewrite IH.
Qed.

Lemma split_on_go_sep_only (tail cur : string) :
  all_newlines tail = true ->
  split_on_go "010" tail cur = cur :: repeat EmptyString (String.length tail).
Proof.
  revert cur; induction tail as [|c tail IH]; intros cur H; simpl in *.
  - reflexivity.
  - apply andb_prop in H as [Hc Ht]. rewrite Hc. now rewrite IH.
Qed.

Lemma split_on_go_line (l tail cur : string) :
  no_newline l = true -> all_newlines tail = true ->
  split_on_go "010" (l ++ tail) cur
  = (cur ++ l) :: repeat EmptyString (String.length tail).
Proof.
  revert cur; induction l as [|c l IH]; intros cur Hl Ht; simpl in *.
  - rewrite str_app_nil_r. now apply split_on_go_sep_only.
  - apply andb_prop in Hl as [Hc Hl]. apply negb_true_iff in Hc. rewrite Hc.
    rewrite IH by assumption. now rewrite str_app_assoc.
Qed.

Lemma filter_nonempty_repeat (n : nat) :
  filter nonempty (repeat EmptyString n) = [].
Proof. induction n; simpl; auto. Qed.

Lemma split_ws_go_word (x s cur : string) :
  str_forallb (fun c => negb (is_space c)) x = true ->
  split_ws_go (x ++ s) cur = split_ws_go s (cur ++ x).
Proof.
  revert cur; induction x as [|c x IH]; intros cur H; simpl in *.
  - now rewrite str_app_nil_r.
  - apply andb_prop in H as [Hc H]. apply negb_true_iff in Hc. rewrite Hc.
    rewrite IH by assumption. now rewrite str_app_assoc.
Qed.

Lemma is_digit_not_space (c : ascii) : is_digit c = true -> is_space c = false.
Proof.
  unfold is_digit, is_space. intro H. apply andb_prop in H as [H1 H2].
  apply Nat.leb_le in H1, H2.
  repeat match goal with
  | |- context [(?a =? ?b)%nat] => destruct (Nat.eqb_spec a b)
  | |- context [(?a <=? ?b)%nat] => destruct (Nat.leb_spec a b)
  end; simpl; auto; lia.
Qed.

Lemma is_digit_not_int_space (c : ascii) : is_digit c = true -> is_int_space c = false.
Proof.
  unfold is_digit, is_int_space. intro H. apply andb_prop in H as [H1 H2].
  apply Nat.leb_le in H1, H2.
  repeat match goal with
  | |- context [(?a =? ?b)%nat] => destruct (Nat.eqb_spec a b)
  | |- context [(?a <=? ?b)%nat] => destruct (Nat.leb_spec a b)
  end; simpl; auto; lia.
Qed.

Lemma is_digit_not_newline (c : ascii) : is_digit c = true -> Ascii.eqb c "010" = false.
Proof.
  intro H. destruct (Ascii.eqb_spec c "010"); [subst; discriminate | reflexivity].
Qed.

Lemma is_digit_cases (c : ascii) :
  is_digit c = true ->
  c = "0"%char \/ c = "1"%char \/ c = "2"%char \/ c = "3"%char \/ c = "4"%char
  \/ c = "5"%char \/ c = "6"%char \/ c = "7"%char \/ c = "8"%char \/ c = "9"%char.
Proof.
  destruct c as [[] [] [] [] [] [] [] []]; vm_compute; intro H;
    first [discriminate | tauto].
Qed.

Lemma py_int_opt_three_digits (d : string) :
  three_digit_code d = true -> py_int_opt d = Some (code_value d).
Proof.
  destruct d as [|c1 [|c2 [|c3 [|c4 d]]]]; simpl; try discriminate.
  intro H. apply andb_prop in H as [H H3]. apply andb_prop in H as [H1 H2].
  unfold py_int_opt, int_strip. simpl.
  rewrite (is_digit_not_int_space c1 H1). simpl.
  rewrite (is_digit_not_int_space c3 H3). simpl.
  assert (Hp : parse_unsigned (String c1 (String c2 (String c3 EmptyString)))
               = Some (digit_value c1 * 100 + digit_value c2 * 10 + digit_value c3)%Z).
  { simpl. rewrite H1, H2, H3. f_equal. lia. }
  destruct (is_digit_cases c1 H1) as [E|[E|[E|[E|[E|[E|[E|[E|[E|E]]]]]]]]];
    subst c1; exact Hp.
Qed.

Lemma py_slice_to_3 (d rest : string) :
  three_digit_code d = true -> py_slice_to 3 (d ++ rest) = d.
Proof. destruct d as [|c1 [|c2 [|c3 [|c4 d]]]]; simpl; easy. Qed.

Lemma three_digit_code_words (d : string) :
  three_digit_code d = true ->
  str_forallb (fun c => negb (is_space c)) d = true /\ no_newline d = true
  /\ nonempty d = true.
Proof.
  destruct d as [|c1 [|c2 [|c3 [|c4 d]]]]; simpl; try discriminate.
  intro H. apply andb_prop in H as [H H3]. apply andb_prop in H as [H1 H2].
  unfold no_newline; simpl.
  rewrite !is_digit_not_space, !is_digit_not_newline by assumption.
  auto.
Qed.


Lemma last_valid_line_single (l tail : string) :
  no_newline l = true -> nonempty l = true -> all_newlines tail = true ->
  last_valid_line (l ++ tail) = Some l.
Proof.
  intros Hl Hn Ht. unfold last_valid_line, py_split_on.
  rewrite split_on_go_line by assumption. simpl. rewrite Hn.
  now rewrite filter_nonempty_repeat.
Qed.

Lemma last_valid_line_multi (pre l tail : string) :
  no_newline l = true -> nonempty l = true -> all_newlines tail = true ->
  last_valid_line (pre ++ String "010" (l ++ tail)) = Some l.
Proof.
  intros Hl Hn Ht. unfold last_valid_line, py_split_on.
  rewrite split_on_go_app_sep, split_on_go_line by assumption.
  rewrite filter_app. simpl. rewrite Hn, filter_nonempty_repeat.
  rewrite rev_app_distr. reflexivity.
Qed.

Lemma py_split_ws_code_line (d text : string) :
  three_digit_code d = true ->
  exists rest, py_split_ws (d ++ String " " text) = d :: rest.
Proof.
  intro Hd. destruct (three_digit_code_words d Hd) as [Hw [_ Hn]].
  unfold py_split_ws. rewrite split_ws_go_word by assumption. simpl.
  destruct d as [|c d]; [discriminate|]. eexists; reflexivity.
Qed.

(** [get_status_code_from_code_response] step by step: which reading
    raises, and when the warning is logged. *)
Lemma get_status_code_unfold (code : string) (w : world) :
  get_status_code_from_code_response code w =
  match last_valid_line code with
  | None => (Raise IndexError, w)
  | Some l =>
      match py_split_ws l with
      | [] => (Raise IndexError, w)
      | tok :: _ =>
          match py_int_opt tok with
          | None => (Raise (ValueError tok), w)
          | Some a =>
              match status_from_first_digits code with
              | None => (Raise (ValueError (py_slice_to 3 code)), w)
              | Some b =>
                  if Z.eqb a b then (Ok a, w)
                  else (Ok a, snd (log_warning inconsistent_msg
                                     [AStr code; AInt a; AInt b] w))
              end
          end
      end
  end.
Proof.
  unfold get_status_code_from_code_response, last_valid_line,
    status_from_first_digits, bind, py_last, py_first, py_int.
  cbv [ret raise].
  remember (py_slice_to 3 code) as p eqn:Hp.
  destruct (rev (filter nonempty (py_split_on "010" code))) as [|l ?];
    simpl; [reflexivity|].
  destruct (py_split_ws l) as [|tok ?]; [reflexivity|].
  destruct (py_int_opt tok) as [a|]; [|reflexivity].
  destruct (py_int_opt p) as [b|]; [|reflexivity].
  destruct (Z.eqb a b); reflexivity.
Qed.

Lemma get_status_code_ok (code : string) (a : Z) (w : world) :
  status_from_last_line code = Some a ->
  status_from_first_digits code = Some a ->
  get_status_code_from_code_response code w = (Ok a, w).
Proof.
  intros Ha Hb. rewrite get_status_code_unfold. unfold status_from_last_line in Ha.
  destruct (last_valid_line code) as [l|]; [|discriminate].
  destruct (py_split_ws l) as [|tok ?]; [discriminate|].
  rewrite Ha, Hb, Z.eqb_refl. reflexivity.
Qed.

(** ** Claims on the status-code extractor *)

(** C1: when the code read from the first token of the last non-empty line
    differs from the code read from the first three characters, the
    extractor returns the last-line code without raising, and logs exactly
    one warning carrying the original text and both values. *)
Theorem get_status_code_conflict_last_line_wins (code : string) (a b : Z)
    (w : world)
    (Ha : status_from_last_line code = Some a)
    (Hb : status_from_first_digits code = Some b)
    (Hab : a <> b) :
  get_status_code_from_code_response code w =
  (Ok a, {| w_conn := w_conn w; w_opened := w_opened w; w_closed := w_closed w;
            w_log := w_log w ++ [LogRecord WARNING inconsistent_msg
                                   [AStr code; AInt a; AInt b]] |}).
Proof.
  rewrite get_status_code_unfold. unfold status_from_last_line in Ha.
  destruct (last_valid_line code) as [l|]; [|discriminate].
  destruct (py_split_ws l) as [|tok ?]; [discriminate|].
  rewrite Ha, Hb. apply Z.eqb_neq in Hab. rewrite Hab. reflexivity.
Qed.

(** C2: a single-line reply [d ++ " " ++ text] and an RFC 959 multi-line
    reply [d ++ "-" ++ ... ++ "\n" ++ d ++ " " ++ text], with [d] a
    three-digit code and only line breaks after the last line, yield the
    integer value of [d] (and no log record); in particular 200 for
    "200 Welcome" and 226 for the two-line 226 reply. *)
Theorem get_status_code_rfc959 (d text tail mid : string) (w : world)
    (Hd : three_digit_code d = true) (Ht : no_newline text = true)
    (Htail : all_newlines tail = true) :
  get_status_code_from_code_response (d ++ " " ++ text ++ tail) w
    = (Ok (code_value d), w)
  /\ get_status_code_from_code_response
       (d ++ "-" ++ mid ++ String "010" (d ++ " " ++ text ++ tail)) w
    = (Ok (code_value d), w)
  /\ fst (get_status_code_from_code_response "200 Welcome" w) = Ok 200%Z
  /\ fst (get_status_code_from_code_response
            ("226-File successfully transferred" ++ String "010"
               "226 0.000 seconds") w) = Ok 226%Z.
Proof.
  destruct (three_digit_code_words d Hd) as [_ [Hdn Hdne]].
  assert (Hl : no_newline (d ++ " " ++ text) = true).
  { unfold no_newline in *. clear -Hdn Ht. induction d as [|c d IH]; simpl in *.
    - exact Ht.
    - apply andb_prop in Hdn as [Hc Hdn]. rewrite Hc. now apply IH. }
  assert (Hln : nonempty (d ++ " " ++ text) = true)
    by (destruct d; [discriminate | reflexivity]).
  destruct (py_split_ws_code_line d text Hd) as [rest Hsplit].
  assert (Hlast : forall pre,
            last_valid_line pre = Some (d ++ " " ++ text) ->
            status_from_last_line pre = Some (code_value d)).
  { intros pre Hpre. unfold status_from_last_line. rewrite Hpre. simpl.
    change (" " ++ text) with (String " " text). rewrite Hsplit.
    now apply py_int_opt_three_digits. }
  split; [|split; [|split; vm_compute; reflexivity]].
  - apply get_status_code_ok.
    + apply Hlast.
      replace (d ++ " " ++ text ++ tail) with ((d ++ " " ++ text) ++ tail)
        by now rewrite !str_app_assoc.
      apply last_valid_line_single; assumption.
    + unfold status_from_first_digits. rewrite py_slice_to_3 by assumption.
      now apply py_int_opt_three_digits.
  - apply get_status_code_ok.
    + apply Hlast.
      replace (d ++ "-" ++ mid ++ String "010" (d ++ " " ++ text ++ tail))
        with ((d ++ "-" ++ mid) ++ String "010" ((d ++ " " ++ text) ++ tail))
        by now rewrite !str_app_assoc.
      apply last_valid_line_multi; assumption.
    + unfold status_from_first_digits. rewrite py_slice_to_3 by assumption.
      now apply py_int_opt_three_digits.
Qed.

(** C3 (as amended): the extractor raises exactly when one of its two
    readings raises: there is no non-empty line, the last non-empty line has
    no token or its first token is not an integer literal, or the first
    three characters are not an integer literal. What it raises is an
    IndexError or a ValueError, returned to the caller with the state
    untouched; otherwise it returns a code. *)
Theorem get_status_code_raises_iff (code : string) (w : world) :
  ((exists e, get_status_code_from_code_response code w = (Raise e, w))
   <-> status_from_last_line code = None \/ status_from_first_digits code = None)
  /\ (forall e w', get_status_code_from_code_response code w = (Raise e, w') ->
       w' = w /\ (e = IndexError \/ exists s, e = ValueError s))
  /\ (status_from_last_line code <> None -> status_from_first_digits code <> None ->
      exists a w', get_status_code_from_code_response code w = (Ok a, w')).
Proof.
  rewrite get_status_code_unfold. unfold status_from_last_line.
  destruct (last_valid_line code) as [l|].
  2:{ split; [split; [intros _; now left | intros _; eauto] | split];
      [intros e w' H; injection H as <- <-; auto | now intros []]. }
  destruct (py_split_ws l) as [|tok ?].
  { split; [split; [intros _; now left | intros _; eauto] | split];
      [intros e w' H; injection H as <- <-; auto | now intros []]. }
  destruct (py_int_opt tok) as [a|].
  2:{ split; [split; [intros _; now left | intros _; eauto] | split];
      [intros e w' H; injection H as <- <-; eauto | now intros []]. }
  destruct (status_from_first_digits code) as [b|].
  2:{ split; [split; [intros _; now right | intros _; eauto] | split];
      [intros e w' H; injection H as <- <-; eauto | intros _ []; auto]. }
  split; [|split].
  - split.
    + intros [e He]. destruct (Z.eqb a b); discriminate.
    + intros [H|H]; discriminate.
  - intros e w'. destruct (Z.eqb a b); discriminate.
  - intros _ _. destruct (Z.eqb a b); eauto.
Qed.

(** Counterexample to C3 as stated: a text shorter than three characters
    is accepted ("7" yields 7), and a text whose last line parses can
    still fail, on its first three characters. *)
Lemma get_status_code_parse_failure_counterexample :
  String.length "7" < 3
  /\ get_status_code_from_code_response "7" w0 = (Ok 7%Z, w0)
  /\ status_from_last_line ("ab" ++ String "010" "226 x") = Some 226%Z
  /\ 3 <= String.length ("ab" ++ String "010" "226 x")
  /\ get_status_code_from_code_response ("ab" ++ String "010" "226 x") w0
     = (Raise (ValueError ("ab" ++ String "010" EmptyString)), w0).
Proof. vm_compute. repeat split; lia. Qed.

(** ** The adapter *)

(** [s.isupper()] on ASCII text: some cased character, none lower case. *)
Definition is_lower (c : ascii) : bool :=
  let n := nat_of_ascii c in (97 <=? n)%nat && (n <=? 122)%nat.

Definition is_upper_char (c : ascii) : bool :=
  let n := nat_of_ascii c in (65 <=? n)%nat && (n <=? 90)%nat.

Fixpoint py_isupper_go (s : string) (seen : bool) : bool :=
  match s with
  | EmptyString => seen
  | String c s' => if is_lower c then false
                   else py_isupper_go s' (seen || is_upper_char c)
  end.

Definition py_isupper (s : string) : bool := py_isupper_go s false.

(** The path [send] hands to the handler, for a non-empty parsed path. *)
Definition strip_path (p : string) : string :=
  match p with
  | String c0 _ => if Ascii.eqb c0 "/" then py_slice_from1 p else p
  | EmptyString => EmptyString
  end.

(** The state right after [self.conn = pysftp.Connection(...)]. *)
Definition after_open (w : world) (c : conn) : world :=
  {| w_conn := Some c; w_opened := c :: w_opened w;
     w_closed := w_closed w; w_log := w_log w |}.

(** The state after [self.conn.close()] on [c]. *)
Definition after_close (w : world) (c : conn) : world :=
  {| w_conn := w_conn w; w_opened := w_opened w;
     w_closed := conn_id c :: w_closed w; w_log := w_log w |}.

(** Computations that open no SFTP session. *)
Definition keeps_opened {A} (m : M A) : Prop :=
  forall w, w_opened (snd (m w)) = w_opened w.

Lemma keeps_opened_ret {A} (a : A) : keeps_opened (ret a).
Proof. intro; reflexivity. Qed.

Lemma keeps_opened_raise {A} (e : exc) : keeps_opened (A:=A) (raise e).
Proof. intro; reflexivity. Qed.

Lemma keeps_opened_bind {A B} (m : M A) (k : A -> M B) :
  keeps_opened m -> (forall a, keeps_opened (k a)) -> keeps_opened (bind m k).
Proof.
  intros Hm Hk w. unfold bind. specialize (Hm w).
  destruct (m w) as [[a|e] w']; simpl in *; [rewrite Hk|]; auto.
Qed.

Lemma keeps_opened_try {A} (m : M A) catch (h : exc -> M A) :
  keeps_opened m -> (forall e, keeps_opened (h e)) ->
  keeps_opened (try_except m catch h).
Proof.
  intros Hm Hh w. unfold try_except. specialize (Hm w).
  destruct (m w) as [[a|e] w']; simpl in *; auto.
  destruct (catch e); simpl; auto. rewrite Hh; auto.
Qed.

Lemma keeps_opened_log msg args : keeps_opened (log_warning msg args).
Proof. intro; reflexivity. Qed.

Lemma keeps_opened_close c : keeps_opened (conn_close c).
Proof. intro; reflexivity. Qed.

Lemma keeps_opened_get_conn : keeps_opened get_conn.
Proof. intro w; unfold get_conn; destruct (w_conn w); reflexivity. Qed.

Lemma keeps_opened_py_int s : keeps_opened (py_int s).
Proof. unfold py_int; destruct (py_int_opt s); intro; reflexivity. Qed.

Lemma keeps_opened_py_last {A} (xs : list A) : keeps_opened (py_last xs).
Proof. unfold py_last; destruct (rev xs); intro; reflexivity. Qed.

Lemma keeps_opened_py_first {A} (xs : list A) : keeps_opened (py_first xs).
Proof. unfold py_first; destruct xs; intro; reflexivity. Qed.

Lemma keeps_opened_if {A} (b : bool) (m1 m2 : M A) :
  keeps_opened m1 -> keeps_opened m2 -> keeps_opened (if b then m1 else m2).
Proof. destruct b; auto. Qed.

Create HintDb opened.
#[export] Hint Resolve keeps_opened_ret keeps_opened_raise keeps_opened_bind
  keeps_opened_try keeps_opened_log keeps_opened_close keeps_opened_get_conn
  keeps_opened_py_int keeps_opened_py_last keeps_opened_py_first
  keeps_opened_if : opened.

Lemma keeps_opened_get_status code :
  keeps_opened (get_status_code_from_code_response code).
Proof.
  unfold get_status_code_from_code_response.
  repeat (apply keeps_opened_bind; [auto with opened | intros]); auto with opened.
Qed.
#[export] Hint Resolve keeps_opened_get_status : opened.

Section Claims.

Variable urlparse : string -> parsed_url.
Variable sftp_connect : option string -> Z -> option string -> option string -> option exc.
Variable sftp_getfo : conn -> string -> res (list byte).
Variable run_hook : string -> response -> res (option response).

Local Abbreviation send := (SFTPAdapter.send urlparse sftp_connect sftp_getfo run_hook).
Local Abbreviation retr := (SFTPAdapter.retr sftp_getfo run_hook).
Local Abbreviation retr_try := (SFTPAdapter.retr_try sftp_getfo run_hook).
Local Abbreviation call_handler :=
  (SFTPAdapter.call_handler sftp_getfo run_hook).
Local Abbreviation dispatch_hook := (SFTPAdapter.dispatch_hook run_hook).
Local Abbreviation build_binary_response :=
  (SFTPAdapter.build_binary_response run_hook).

(** The session [send] opens for [req] in state [w]. *)
Definition new_conn (req : request) (w : world) : conn :=
  let parsed := urlparse (req_url req) in
  Conn (length (w_opened w)) (pu_hostname parsed)
    (port_or_22 (pu_port parsed))
    (pu_username parsed) (pu_password parsed).

Definition connect_result (req : request) : option exc :=
  let parsed := urlparse (req_url req) in
  sftp_connect (pu_hostname parsed) (port_or_22 (pu_port parsed))
    (pu_username parsed) (pu_password parsed).

(** For a non-empty path and a session that opens, [send] stores the
    session in [self.conn] and then looks up the handler. *)
Lemma send_reaches_lookup (req : request) (w : world) (p : string) :
  pu_path (urlparse (req_url req)) = Some p -> p <> EmptyString ->
  connect_result req = None ->
  send req w =
  (h <- func_table_lookup (req_method req) ;;
   resp <- call_handler h (strip_path p) req ;; ret resp)
    (after_open w (new_conn req w)).
Proof.
  intros Hpath Hp Hc. unfold connect_result in Hc.
  unfold SFTPAdapter.send, bind at 1. rewrite Hpath.
  destruct p as [|c0 p]; [contradiction|]. simpl.
  unfold SFTPAdapter.open_conn, bind at 1. rewrite Hc. reflexivity.
Qed.

Lemma send_connect_fails (req : request) (w : world) (p : string) (e : exc) :
  pu_path (urlparse (req_url req)) = Some p -> p <> EmptyString ->
  connect_result req = Some e ->
  send req w = (Raise e, w).
Proof.
  intros Hpath Hp Hc. unfold connect_result in Hc.
  unfold SFTPAdapter.send, bind at 1. rewrite Hpath.
  destruct p as [|c0 p]; [contradiction|]. simpl.
  unfold SFTPAdapter.open_conn, bind at 1. rewrite Hc. reflexivity.
Qed.

Lemma keeps_opened_getfo c path data :
  keeps_opened (SFTPAdapter.getfo sftp_getfo c path data).
Proof.
  unfold SFTPAdapter.getfo. destruct (sftp_getfo c path); intro; reflexivity.
Qed.

Lemma keeps_opened_run_hooks hooks r :
  keeps_opened (SFTPAdapter.run_hooks run_hook hooks r).
Proof.
  revert r; induction hooks as [|h hs IH]; intro r; simpl.
  - intro; reflexivity.
  - destruct (run_hook h r) as [[d|]|e]; auto. intro; reflexivity.
Qed.

Lemma keeps_opened_dispatch key hooks r : keeps_opened (dispatch_hook key hooks r).
Proof.
  unfold SFTPAdapter.dispatch_hook. destruct (lookup_str key hooks).
  - apply keeps_opened_run_hooks.
  - intro; reflexivity.
Qed.

Lemma keeps_opened_func_table_lookup m : keeps_opened (func_table_lookup m).
Proof. unfold func_table_lookup; destruct (lookup_str m func_table); intro; reflexivity. Qed.

#[local] Hint Resolve keeps_opened_getfo keeps_opened_dispatch
  keeps_opened_func_table_lookup : opened.

Lemma keeps_opened_call_handler h path req :
  keeps_opened (call_handler h path req).
Proof.
  destruct h; simpl; unfold SFTPAdapter.list, SFTPAdapter.stor, SFTPAdapter.nlst;
    auto with opened.
  unfold SFTPAdapter.retr, SFTPAdapter.retr_try, SFTPAdapter.build_binary_response,
    SFTPAdapter.build_response.
  repeat (first [apply keeps_opened_bind | apply keeps_opened_try]; intros);
    auto with opened.
Qed.

(** Hook dispatch leaves the world as it is. *)
Lemma run_hooks_state hooks r w :
  snd (SFTPAdapter.run_hooks run_hook hooks r w) = w.
Proof.
  revert r; induction hooks as [|h hs IH]; intro r; simpl; [reflexivity|].
  destruct (run_hook h r) as [[d|]|e]; auto.
Qed.

Lemma dispatch_hook_state key hooks r w : snd (dispatch_hook key hooks r w) = w.
Proof.
  unfold SFTPAdapter.dispatch_hook. destruct (lookup_str key hooks);
    [apply run_hooks_state | reflexivity].
Qed.

(** The response [build_binary_response] hands to hook dispatch for the
    code "226". *)
Definition response_226 (req : request) (data : bytes_io) : response :=
  {| resp_encoding := None; resp_raw := bio_seek 0 data; resp_url := req_url req;
     resp_request := req; resp_status_code := 226 |}.

Lemma build_binary_response_226 req data w :
  build_binary_response req data "226" w
  = dispatch_hook "response" (req_hooks req) (response_226 req data) w.
Proof.
  unfold SFTPAdapter.build_binary_response, SFTPAdapter.build_response, bind at 1.
  rewrite (get_status_code_ok "226" 226 w) by reflexivity. reflexivity.
Qed.

Lemma send_unknown_method (req : request) (w : world) (p : string) :
  lookup_str (req_method req) func_table = None ->
  pu_path (urlparse (req_url req)) = Some p -> p <> EmptyString ->
  connect_result req = None ->
  send req w = (Raise (KeyError (req_method req)), after_open w (new_conn req w)).
Proof.
  intros Hm Hpath Hp Hc. rewrite (send_reaches_lookup req w p Hpath Hp Hc).
  unfold bind at 1, func_table_lookup. rewrite Hm. reflexivity.
Qed.

(** C4 (as amended): for STOR, LIST and NLST and a non-empty path, once
    the session is opened [send] raises
    [SystemExit("<VERB> not implemented yet")] and returns no response, and
    an [except Exception] clause of the caller lets it through (SystemExit is
    not an [Exception]); if opening the session fails, that error
    propagates instead, with nothing opened. *)
Theorem send_unimplemented_verb_raises_system_exit (req : request) (w : world)
    (verb p : string)
    (Hverb : verb = "STOR" \/ verb = "LIST" \/ verb = "NLST")
    (Hm : req_method req = verb)
    (Hpath : pu_path (urlparse (req_url req)) = Some p) (Hp : p <> EmptyString) :
  (connect_result req = None ->
   send req w = (Raise (SystemExit (not_implemented verb)), after_open w (new_conn req w))
   /\ (forall h, try_except (send req) (fun e => isinstance e CException) h w
                 = send req w))
  /\ (forall e, connect_result req = Some e -> send req w = (Raise e, w))
  /\ isinstance (SystemExit (not_implemented verb)) CException = false.
Proof.
  split; [|split].
  - intro Hc.
    assert (Hsend : send req w
                    = (Raise (SystemExit (not_implemented verb)),
                       after_open w (new_conn req w))).
    { rewrite (send_reaches_lookup req w p Hpath Hp Hc), Hm.
      destruct Hverb as [-> | [-> | ->]]; reflexivity. }
    split; [exact Hsend|].
    intro h. unfold try_except. rewrite Hsend. reflexivity.
  - intros e He. exact (send_connect_fails req w p e Hpath Hp He).
  - reflexivity.
Qed.

(** C5 (as amended): with an open session [c] in [self.conn], when the
    fetch raises an OS-level error with an errno, [retr] returns [None]
    without raising, logs the path and the errno, and closes [c] exactly
    once; when the fetch succeeds and the response hooks return normally,
    it also closes [c] exactly once; an error of another kind from the
    fetch propagates and [c] is not closed. *)
Theorem retr_os_error_returns_none_and_closes (path : string) (req : request)
    (w : world) (c : conn) (Hc : w_conn w = Some c) :
  (forall n, sftp_getfo c path = Raise (OSError (Some n)) ->
     retr path req w
     = (Ok None, after_close (snd (log_warning SFTPAdapter.get_failed_msg
                                    [AStr path; AInt n] w)) c))
  /\ (forall bs r, sftp_getfo c path = Ok bs ->
       fst (build_binary_response req (bio_write bs bytes_io_new) "226" w) = Ok r ->
       retr path req w = (Ok (Some r), after_close w c))
  /\ (forall e, sftp_getfo c path = Raise e -> isinstance e COSError = false ->
       retr path req w = (Raise e, w)).
Proof.
  split; [|split].
  - intros n Hget.
    unfold SFTPAdapter.retr, SFTPAdapter.retr_try, try_except, bind, get_conn.
    rewrite Hc. unfold SFTPAdapter.getfo. rewrite Hget. simpl. rewrite Hc.
    reflexivity.
  - intros bs r Hget Hr.
    pose proof (dispatch_hook_state "response" (req_hooks req)
                  (response_226 req (bio_write bs bytes_io_new)) w) as Hw.
    rewrite <- build_binary_response_226 in Hw.
    unfold SFTPAdapter.retr, SFTPAdapter.retr_try, try_except, bind, get_conn.
    rewrite Hc. unfold SFTPAdapter.getfo. rewrite Hget. unfold ret at 1.
    destruct (build_binary_response req (bio_write bs bytes_io_new) "226" w)
      as [o w1] eqn:E.
    simpl in Hr, Hw. subst o w1. simpl. rewrite Hc. reflexivity.
  - intros e Hget He.
    unfold SFTPAdapter.retr, SFTPAdapter.retr_try, try_except, bind, get_conn.
    rewrite Hc. unfold SFTPAdapter.getfo. rewrite Hget.
    destruct e; simpl in He; try discriminate; reflexivity.
Qed.

(** C6: on a successful fetch of [bs], the response [retr] hands to hook
    dispatch has status code 226, encoding [None], and its raw stream holds
    [bs] at offset 0; with no response hooks it is the response returned. *)
Theorem retr_success_response_226_at_offset_zero (path : string)
    (req : request) (w : world) (c : conn) (bs : list byte)
    (Hc : w_conn w = Some c) (Hget : sftp_getfo c path = Ok bs) :
  exists r0,
    resp_status_code r0 = 226%Z /\ resp_encoding r0 = None
    /\ bio_pos (resp_raw r0) = 0 /\ bio_buf (resp_raw r0) = bs
    /\ resp_request r0 = req
    /\ retr_try path req w
       = (r <- dispatch_hook "response" (req_hooks req) r0 ;; ret (Some r)) w
    /\ (lookup_str "response" (req_hooks req) = None ->
        retr path req w = (Ok (Some r0), after_close w c)).
Proof.
  exists (response_226 req (bio_write bs bytes_io_new)).
  assert (Htry : retr_try path req w
     = (r <- dispatch_hook "response" (req_hooks req)
               (response_226 req (bio_write bs bytes_io_new)) ;;
        ret (Some r)) w).
  { unfold SFTPAdapter.retr_try, bind at 1, get_conn. rewrite Hc.
    unfold bind at 1, SFTPAdapter.getfo. rewrite Hget. unfold ret at 1.
    unfold bind at 1. rewrite build_binary_response_226. reflexivity. }
  repeat split; try reflexivity; [exact Htry|].
  intro Hno. unfold SFTPAdapter.retr, try_except, bind at 1.
  rewrite Htry. unfold bind at 1, SFTPAdapter.dispatch_hook. rewrite Hno.
  destruct w as [wc wo wcl wl]; simpl in Hc; subst wc. reflexivity.
Qed.

(** C7 (the defect): [send] reads [path[0]] before testing for the
    separator, so an empty parsed path raises IndexError (and an absent one
    TypeError) before any session is opened or any handler sees the path. *)
Theorem send_empty_path_raises (req : request) (w : world) :
  (pu_path (urlparse (req_url req)) = Some EmptyString ->
   send req w = (Raise IndexError, w))
  /\ (pu_path (urlparse (req_url req)) = None -> send req w = (Raise TypeError, w)).
Proof.
  split; intro Hpath; unfold SFTPAdapter.send, bind at 1; rewrite Hpath; reflexivity.
Qed.

(** C8 (as amended): for a non-empty path, [send] opens the session before
    it looks up the method: whatever the method, an error from the session
    layer is raised as it is, with nothing opened; once the session is open,
    a method outside the verb table makes the lookup raise
    [KeyError(method)]. Neither is caught. *)
Theorem send_unknown_method_raises (req : request) (w : world) (p : string)
    (Hpath : pu_path (urlparse (req_url req)) = Some p) (Hp : p <> EmptyString) :
  (forall e, connect_result req = Some e -> send req w = (Raise e, w))
  /\ (lookup_str (req_method req) func_table = None ->
      connect_result req = None ->
      send req w = (Raise (KeyError (req_method req)), after_open w (new_conn req w))).
Proof.
  split.
  - intros e He. exact (send_connect_fails req w p e Hpath Hp He).
  - intros Hm Hc. exact (send_unknown_method req w p Hm Hpath Hp Hc).
Qed.

Lemma send_opened (req : request) (w : world) :
  w_opened (snd (send req w)) = w_opened w
  \/ w_opened (snd (send req w)) = new_conn req w :: w_opened w.
Proof.
  destruct (pu_path (urlparse (req_url req))) as [[|c0 q]|] eqn:Hpath.
  - left. unfold SFTPAdapter.send, bind at 1. rewrite Hpath. reflexivity.
  - destruct (connect_result req) as [e|] eqn:Hc.
    + left. rewrite (send_connect_fails req w (String c0 q) e Hpath) by easy.
      reflexivity.
    + right. rewrite (send_reaches_lookup req w (String c0 q) Hpath) by easy.
      assert (K : keeps_opened
                (h <- func_table_lookup (req_method req) ;;
                 resp <- call_handler h (strip_path (String c0 q)) req ;; ret resp)).
      { apply keeps_opened_bind; [apply keeps_opened_func_table_lookup|].
        intro h. apply keeps_opened_bind; [apply keeps_opened_call_handler|].
        intro; apply keeps_opened_ret. }
      simpl. etransitivity; [apply K | reflexivity].
  - left. unfold SFTPAdapter.send, bind at 1. rewrite Hpath. reflexivity.
Qed.

(** C9: the verb table has exactly the upper-case keys LIST, RETR, STOR,
    NLST and GET, GET and RETR both map to [retr], and a session [send]
    opens for a URL without a port is opened on port 22. *)
Theorem func_table_verbs_and_default_port :
  map fst func_table = ["LIST"; "RETR"; "STOR"; "NLST"; "GET"]
  /\ forallb py_isupper (map fst func_table) = true
  /\ lookup_str "GET" func_table = Some Hretr
  /\ lookup_str "RETR" func_table = Some Hretr
  /\ call_handler Hretr = retr
  /\ (forall req w c,
        pu_port (urlparse (req_url req)) = None ->
        w_opened (snd (send req w)) = c :: w_opened w ->
        conn_port c = 22%Z).
Proof.
  repeat split.
  intros req w c Hport Hop.
  destruct (send_opened req w) as [E|E]; rewrite Hop in E.
  - exfalso. apply (f_equal (@length conn)) in E. simpl in E. lia.
  - injection E as E'. rewrite E'. unfold new_conn. rewrite Hport. reflexivity.
Qed.

(** C10: for a method outside the verb table, once the session is opened
    it is stored in [self.conn] before the lookup raises [KeyError], and
    nothing closes it: no [close()] is issued, and [SFTPAdapter.close] is a
    no-op. *)
Theorem send_unknown_method_leaks_connection (req : request) (w : world)
    (p : string)
    (Hm : lookup_str (req_method req) func_table = None)
    (Hpath : pu_path (urlparse (req_url req)) = Some p) (Hp : p <> EmptyString)
    (Hc : connect_result req = None) :
  exists c w',
    send req w = (Raise (KeyError (req_method req)), w')
    /\ w_opened w' = c :: w_opened w
    /\ w_conn w' = Some c
    /\ w_closed w' = w_closed w
    /\ adapter_close w' = (Ok tt, w')
    /\ ((forall i, In i (w_closed w) -> (i < length (w_opened w))%nat) ->
        ~ In (conn_id c) (w_closed w')).
Proof.
  exists (new_conn req w), (after_open w (new_conn req w)).
  rewrite (send_unknown_method req w p Hm Hpath Hp Hc).
  repeat split.
  intros Hwf Hin. simpl in Hin. apply Hwf in Hin. unfold new_conn in Hin.
  simpl in Hin. lia.
Qed.

End Claims.

(** ** Concrete sessions, requests and states *)

Definition ex_url : string := "sftp://user@example.com/pub/file.txt".
Definition ex_url_empty_path : string := "sftp://example.com?x".

(** The components of the two URLs above. *)
Definition ex_urlparse (u : string) : parsed_url :=
  if String.eqb u ex_url then
    ParsedUrl (Some "example.com") None (Some "user") None (Some "/pub/file.txt")
  else if String.eqb u ex_url_empty_path then
    ParsedUrl (Some "example.com") None None None (Some EmptyString)
  else ParsedUrl None None None None None.

Definition ex_connect_ok (host : option string) (port : Z)
    (username password : option string) : option exc := None.

(** A refused connection: [ConnectionRefusedError], errno 111. *)
Definition ex_connect_refused (host : option string) (port : Z)
    (username password : option string) : option exc := Some (OSError (Some 111%Z)).

Definition ex_payload : list byte := [x68; x69; x0a].

Definition ex_getfo_ok (c : conn) (path : string) : res (list byte) := Ok ex_payload.

(** [FileNotFoundError], errno 2. *)
Definition ex_getfo_enoent (c : conn) (path : string) : res (list byte) :=
  Raise (OSError (Some 2%Z)).

(** The session drops during the transfer: paramiko's SSHException. *)
Definition ex_getfo_dropped (c : conn) (path : string) : res (list byte) :=
  Raise (SessionError "Server connection dropped: ").

Definition ex_no_hook (name : string) (r : response) : res (option response) :=
  Ok None.

(** [requests]' default hook table: no response hook. *)
Definition ex_request (method : string) : request :=
  Request ex_url method [("response", [])].

Definition ex_conn : conn := Conn 0 (Some "example.com") 22 (Some "user") None.

Definition ex_world_open : world := after_open w0 ex_conn.

(** A URL with an explicit port and a path starting with two separators. *)
Definition ex_url_port : string := "sftp://example.com:2222//srv/f".

Definition ex_urlparse_port (u : string) : parsed_url :=
  if String.eqb u ex_url_port then
    ParsedUrl (Some "example.com") (Some 2222%Z) None None (Some "//srv/f")
  else ex_urlparse u.

Definition ex_request_port : request := Request ex_url_port "RETR" [("response", [])].

(** An [OSError] raised without an errno. *)
Definition ex_getfo_no_errno (c : conn) (path : string) : res (list byte) :=
  Raise (OSError None).

(** A response hook that fails with EIO, errno 5. *)
Definition ex_hook_eio (name : string) (r : response) : res (option response) :=
  Raise (OSError (Some 5%Z)).

Definition ex_request_hooked : request := Request ex_url "RETR" [("response", ["check"])].

(** A two-line reply whose prefix and last line disagree. *)
Definition ex_conflict_code : string :=
  "200-File successfully transferred" ++ String "010" "226 0.000 seconds".

Definition ex_conflict_world : world :=
  World None [] [] [LogRecord WARNING inconsistent_msg
                      [AStr ex_conflict_code; AInt 226; AInt 200]].

(** ** Witnesses and counterexamples *)

Lemma get_status_code_conflict_last_line_wins_witness :
  let code := ("200-File successfully transferred" ++ String "010"
               "226 0.000 seconds") in
  status_from_last_line code = Some 226%Z
  /\ status_from_first_digits code = Some 200%Z
  /\ get_status_code_from_code_response code w0
     = (Ok 226%Z, {| w_conn := None; w_opened := []; w_closed := [];
                     w_log := [LogRecord WARNING inconsistent_msg
                                [AStr code; AInt 226; AInt 200]] |}).
Proof.
  intro code. split; [vm_compute; reflexivity|]. split; [vm_compute; reflexivity|].
  apply (get_status_code_conflict_last_line_wins code 226 200 w0);
    [vm_compute; reflexivity | vm_compute; reflexivity | lia].
Defined.

Lemma get_status_code_rfc959_witness :
  three_digit_code "226" = true /\ no_newline "0.000 seconds" = true
  /\ all_newlines (String "010" EmptyString) = true
  /\ get_status_code_from_code_response
       ("226-" ++ "File successfully transferred" ++ String "010"
        ("226" ++ " " ++ "0.000 seconds" ++ String "010" EmptyString)) w0
     = (Ok 226%Z, w0).
Proof.
  split; [reflexivity|]. split; [reflexivity|]. split; [reflexivity|].
  apply (get_status_code_rfc959 "226" "0.000 seconds" (String "010" EmptyString)
           "File successfully transferred" w0);
    reflexivity.
Defined.

Lemma get_status_code_raises_iff_witness :
  (exists e, get_status_code_from_code_response (String "028" "200 x") w0 = (Raise e, w0))
  /\ exists a w', get_status_code_from_code_response "200 Welcome" w0 = (Ok a, w').
Proof.
  split.
  - apply (proj2 (proj1 (get_status_code_raises_iff (String "028" "200 x") w0))).
    right. vm_compute. reflexivity.
  - apply (proj2 (proj2 (get_status_code_raises_iff "200 Welcome" w0)));
      vm_compute; discriminate.
Defined.

Lemma send_unimplemented_verb_raises_system_exit_witness :
  SFTPAdapter.send ex_urlparse ex_connect_ok ex_getfo_ok ex_no_hook
    (ex_request "STOR") w0
  = (Raise (SystemExit "STOR not implemented yet"), ex_world_open)
  /\ SFTPAdapter.send ex_urlparse ex_connect_refused ex_getfo_ok ex_no_hook
       (ex_request "LIST") w0
     = (Raise (OSError (Some 111%Z)), w0).
Proof.
  split.
  - apply (proj1 (proj1 (send_unimplemented_verb_raises_system_exit ex_urlparse
             ex_connect_ok ex_getfo_ok ex_no_hook (ex_request "STOR") w0 "STOR"
             "/pub/file.txt" ltac:(left; reflexivity) eq_refl eq_refl
             ltac:(discriminate)) eq_refl)).
  - apply (proj1 (proj2 (send_unimplemented_verb_raises_system_exit ex_urlparse
             ex_connect_refused ex_getfo_ok ex_no_hook (ex_request "LIST") w0 "LIST"
             "/pub/file.txt" ltac:(right; left; reflexivity) eq_refl eq_refl
             ltac:(discriminate)))).
    reflexivity.
Defined.

(** Counterexample to C4 as stated: the SystemExit raised by [send] is an
    ordinary exception value for a caller with [except SystemExit:], which
    recovers from it; and a refused connection makes [send] raise
    [OSError] instead. *)
Lemma send_stor_system_exit_is_catchable :
  fst (SFTPAdapter.send ex_urlparse ex_connect_ok ex_getfo_ok ex_no_hook
         (ex_request "STOR") w0)
    = Raise (SystemExit "STOR not implemented yet")
  /\ fst (try_except
            (SFTPAdapter.send ex_urlparse ex_connect_ok ex_getfo_ok ex_no_hook
               (ex_request "STOR"))
            (fun e => isinstance e CSystemExit) (fun _ => ret None) w0)
     = Ok None
  /\ fst (SFTPAdapter.send ex_urlparse ex_connect_refused ex_getfo_ok ex_no_hook
            (ex_request "STOR") w0)
     = Raise (OSError (Some 111%Z)).
Proof. vm_compute. repeat split. Qed.

Lemma retr_os_error_returns_none_and_closes_witness :
  SFTPAdapter.retr ex_getfo_enoent ex_no_hook "pub/file.txt" (ex_request "RETR")
    ex_world_open
  = (Ok None, after_close (snd (log_warning SFTPAdapter.get_failed_msg
                                 [AStr "pub/file.txt"; AInt 2] ex_world_open))
                ex_conn).
Proof.
  apply (proj1 (retr_os_error_returns_none_and_closes ex_getfo_enoent ex_no_hook
                  "pub/file.txt" (ex_request "RETR") ex_world_open ex_conn
                  eq_refl) 2%Z).
  reflexivity.
Defined.

(** Counterexample to C5 as stated: a fetch that fails with a session-layer
    error that is not an OSError propagates out of [retr], and the session
    is never closed. *)
Lemma retr_non_os_failure_leaves_connection_open :
  SFTPAdapter.retr ex_getfo_dropped ex_no_hook "pub/file.txt" (ex_request "GET")
    ex_world_open
  = (Raise (SessionError "Server connection dropped: "), ex_world_open)
  /\ w_closed ex_world_open = [].
Proof. vm_compute. split; reflexivity. Qed.

Lemma retr_success_response_226_at_offset_zero_witness :
  exists r0,
    resp_status_code r0 = 226%Z /\ resp_encoding r0 = None
    /\ bio_pos (resp_raw r0) = 0 /\ bio_buf (resp_raw r0) = ex_payload
    /\ resp_request r0 = ex_request "RETR"
    /\ SFTPAdapter.retr_try ex_getfo_ok ex_no_hook "pub/file.txt"
         (ex_request "RETR") ex_world_open
       = (r <- SFTPAdapter.dispatch_hook ex_no_hook "response"
                 (req_hooks (ex_request "RETR")) r0 ;; ret (Some r)) ex_world_open
    /\ (lookup_str "response" (req_hooks (ex_request "RETR")) = None ->
        SFTPAdapter.retr ex_getfo_ok ex_no_hook "pub/file.txt" (ex_request "RETR")
          ex_world_open = (Ok (Some r0), after_close ex_world_open ex_conn)).
Proof.
  apply (retr_success_response_226_at_offset_zero ex_getfo_ok ex_no_hook
           "pub/file.txt" (ex_request "RETR") ex_world_open ex_conn ex_payload);
    reflexivity.
Defined.

Lemma send_empty_path_raises_witness :
  SFTPAdapter.send ex_urlparse ex_connect_ok ex_getfo_ok ex_no_hook
    (Request ex_url_empty_path "RETR" [("response", [])]) w0
  = (Raise IndexError, w0).
Proof.
  apply (proj1 (send_empty_path_raises ex_urlparse ex_connect_ok ex_getfo_ok
                  ex_no_hook (Request ex_url_empty_path "RETR" [("response", [])]) w0)).
  reflexivity.
Defined.

Lemma send_unknown_method_raises_witness :
  SFTPAdapter.send ex_urlparse ex_connect_refused ex_getfo_ok ex_no_hook
    (ex_request "RETR") w0
  = (Raise (OSError (Some 111%Z)), w0)
  /\ SFTPAdapter.send ex_urlparse ex_connect_ok ex_getfo_ok ex_no_hook
       (ex_request "PUT") w0
     = (Raise (KeyError "PUT"), ex_world_open).
Proof.
  split.
  - apply (proj1 (send_unknown_method_raises ex_urlparse ex_connect_refused
                    ex_getfo_ok ex_no_hook (ex_request "RETR") w0 "/pub/file.txt"
                    eq_refl ltac:(discriminate))).
    reflexivity.
  - apply (proj2 (send_unknown_method_raises ex_urlparse ex_connect_ok ex_getfo_ok
                    ex_no_hook (ex_request "PUT") w0 "/pub/file.txt"
                    eq_refl ltac:(discriminate)));
      reflexivity.
Defined.

(** Counterexample to C8 as stated: for the unsupported method PUT, a
    refused connection makes [send] raise the session layer's [OSError],
    not a key-lookup error: the session is opened before the lookup. *)
Lemma send_unknown_method_connection_error_first :
  SFTPAdapter.send ex_urlparse ex_connect_refused ex_getfo_ok ex_no_hook
    (ex_request "PUT") w0
  = (Raise (OSError (Some 111%Z)), w0).
Proof. vm_compute. reflexivity. Qed.

Lemma func_table_verbs_and_default_port_witness :
  conn_port ex_conn = 22%Z
  /\ w_opened (snd (SFTPAdapter.send ex_urlparse ex_connect_ok ex_getfo_ok ex_no_hook
                      (ex_request "GET") w0)) = [ex_conn].
Proof.
  split; [|vm_compute; reflexivity].
  apply (proj2 (proj2 (proj2 (proj2 (proj2
           (func_table_verbs_and_default_port ex_urlparse ex_connect_ok
              ex_getfo_ok ex_no_hook)))))
           (ex_request "GET") w0 ex_conn); vm_compute; reflexivity.
Defined.

Lemma send_unknown_method_leaks_connection_witness :
  exists c w',
    SFTPAdapter.send ex_urlparse ex_connect_ok ex_getfo_ok ex_no_hook
      (ex_request "PUT") w0 = (Raise (KeyError "PUT"), w')
    /\ w_opened w' = [c] /\ w_conn w' = Some c /\ w_closed w' = []
    /\ adapter_close w' = (Ok tt, w')
    /\ ((forall i, In i (w_closed w0) -> (i < length (w_opened w0))%nat) ->
        ~ In (conn_id c) (w_closed w')).
Proof.
  apply (send_unknown_method_leaks_connection ex_urlparse ex_connect_ok ex_getfo_ok
           ex_no_hook (ex_request "PUT") w0 "/pub/file.txt");
    [reflexivity | reflexivity | discriminate | reflexivity].
Defined.

(** ** Further properties of the extractor *)

Lemma get_status_code_ok_iff_aux (code : string) (w : world) (a : Z) :
  fst (get_status_code_from_code_response code w) = Ok a
  <-> status_from_last_line code = Some a /\ status_from_first_digits code <> None.
Proof.
  rewrite get_status_code_unfold. unfold status_from_last_line.
  destruct (last_valid_line code) as [l|]; simpl.
  2:{ split; [discriminate | now intros []]. }
  destruct (py_split_ws l) as [|tok ?]; simpl.
  { split; [discriminate | now intros []]. }
  destruct (py_int_opt tok) as [a'|]; simpl.
  2:{ split; [discriminate | now intros []]. }
  destruct (status_from_first_digits code) as [b|]; simpl.
  2:{ split; [discriminate | now intros [_ []]]. }
  split.
  - intro H. destruct (Z.eqb a' b); simpl in H; injection H as ->; split; congruence.
  - intros [H _]. injection H as ->. destruct (Z.eqb a b); reflexivity.
Qed.

(** X1: the extractor succeeds with [a] exactly when the last non-empty
    line's first token reads as [a] and the first three characters read as
    some integer: the value returned is always the last-line reading, never
    the prefix one. *)
Theorem get_status_code_returns_last_line_reading (code : string) (w : world)
    (a : Z) :
  fst (get_status_code_from_code_response code w) = Ok a
  <-> status_from_last_line code = Some a /\ status_from_first_digits code <> None.
Proof. apply get_status_code_ok_iff_aux. Qed.

(** X2: the extractor touches no session state, and its log effect is
    exactly one warning carrying the reply, the last-line reading [a] and
    the prefix reading [b] when both readings succeed with [a <> b], and
    nothing otherwise (in particular, nothing when it raises). *)
Theorem get_status_code_effects (code : string) (w w' : world) (r : res Z)
    (H : get_status_code_from_code_response code w = (r, w')) :
  w_conn w' = w_conn w /\ w_opened w' = w_opened w /\ w_closed w' = w_closed w
  /\ w_log w'
     = (w_log w ++ match status_from_last_line code, status_from_first_digits code with
                   | Some a, Some b =>
                       if Z.eqb a b then []
                       else [LogRecord WARNING inconsistent_msg
                               [AStr code; AInt a; AInt b]]
                   | _, _ => []
                   end)%list.
Proof.
  revert H. rewrite get_status_code_unfold. unfold status_from_last_line.
  destruct (last_valid_line code) as [l|];
    [|intro H; injection H as <- <-; rewrite app_nil_r; auto].
  destruct (py_split_ws l) as [|tok ?];
    [intro H; injection H as <- <-; rewrite app_nil_r; auto|].
  destruct (py_int_opt tok) as [a|];
    [|intro H; injection H as <- <-; rewrite app_nil_r; auto].
  destruct (status_from_first_digits code) as [b|];
    [|intro H; injection H as <- <-; rewrite app_nil_r; auto].
  destruct (Z.eqb a b); intro H; injection H as <- <-;
    [rewrite app_nil_r; auto | simpl; auto].
Qed.

Lemma split_on_go_newline_tail (code tail cur : string) :
  all_newlines tail = true ->
  split_on_go "010" (code ++ tail) cur
  = (split_on_go "010" code cur ++ repeat EmptyString (String.length tail))%list.
Proof.
  intro Ht. revert cur; induction code as [|c code IH]; intro cur; simpl.
  - now apply split_on_go_sep_only.
  - destruct (Ascii.eqb c "010"); simpl; now rewrite IH.
Qed.

Lemma list_ascii_of_string_app (s t : string) :
  list_ascii_of_string (s ++ t) = (list_ascii_of_string s ++ list_ascii_of_string t)%list.
Proof. induction s as [|c s IH]; simpl; [reflexivity | now rewrite IH]. Qed.

Lemma lstrip_list_spaces (l m : list ascii) :
  forallb is_int_space m = true ->
  lstrip_list (l ++ m) = match lstrip_list l with [] => [] | l' => (l' ++ m)%list end.
Proof.
  intro Hm. induction l as [|c l IH]; simpl.
  - induction m as [|d m IHm]; simpl in *; [reflexivity|].
    apply andb_prop in Hm as [Hd Hm]. rewrite Hd. auto.
  - destruct (is_int_space c); auto.
Qed.

Lemma lstrip_list_prefix_spaces (m l : list ascii) :
  forallb is_int_space m = true -> lstrip_list (m ++ l) = lstrip_list l.
Proof.
  induction m as [|d m IH]; simpl; [reflexivity|].
  intro H. apply andb_prop in H as [Hd Hm]. rewrite Hd. auto.
Qed.

Lemma int_strip_spaces_r (s t : string) :
  str_forallb is_int_space t = true -> int_strip (s ++ t) = int_strip s.
Proof.
  intro Ht. unfold int_strip. rewrite list_ascii_of_string_app.
  assert (Hm : forallb is_int_space (list_ascii_of_string t) = true).
  { clear s. induction t as [|c t IH]; simpl in *; auto.
    apply andb_prop in Ht as [-> Ht]. auto. }
  rewrite (lstrip_list_spaces _ _ Hm).
  destruct (lstrip_list (list_ascii_of_string s)) as [|c l] eqn:E; [reflexivity|].
  rewrite rev_app_distr, lstrip_list_prefix_spaces; [reflexivity|].
  rewrite forallb_forall in *. intros x Hx. apply Hm. now apply in_rev.
Qed.

Lemma py_slice_to_app (n : nat) (a b : string) :
  py_slice_to n (a ++ b) = py_slice_to n a ++ py_slice_to (n - String.length a) b.
Proof.
  revert n; induction a as [|c a IH]; intro n; simpl.
  - rewrite Nat.sub_0_r. now destruct n.
  - destruct n; simpl; [reflexivity|]. now rewrite IH.
Qed.

Lemma py_slice_to_newlines (n : nat) (t : string) :
  all_newlines t = true -> str_forallb is_int_space (py_slice_to n t) = true.
Proof.
  revert n; induction t as [|c t IH]; intros n Ht; destruct n; simpl in *; auto.
  apply andb_prop in Ht as [Hc Ht]. apply Ascii.eqb_eq in Hc. subst c.
  simpl. auto.
Qed.

(** X3: line breaks appended to a reply change neither reading, hence
    neither whether the extractor raises nor the code it returns. *)
Theorem get_status_code_trailing_newlines (code tail : string) (w : world)
    (Htail : all_newlines tail = true) :
  status_from_last_line (code ++ tail) = status_from_last_line code
  /\ status_from_first_digits (code ++ tail) = status_from_first_digits code
  /\ (forall a, fst (get_status_code_from_code_response (code ++ tail) w) = Ok a
                <-> fst (get_status_code_from_code_response code w) = Ok a).
Proof.
  assert (H1 : status_from_last_line (code ++ tail) = status_from_last_line code).
  { unfold status_from_last_line, last_valid_line, py_split_on.
    rewrite split_on_go_newline_tail by assumption.
    rewrite filter_app, filter_nonempty_repeat, app_nil_r. reflexivity. }
  assert (H2 : status_from_first_digits (code ++ tail)
               = status_from_first_digits code).
  { unfold status_from_first_digits, py_int_opt.
    rewrite py_slice_to_app, int_strip_spaces_r by now apply py_slice_to_newlines.
    reflexivity. }
  split; [exact H1|]. split; [exact H2|].
  intro a. rewrite !get_status_code_ok_iff_aux, H1, H2. reflexivity.
Qed.

(** ** Further properties of the adapter *)

(** [w'] has the session state of [w]: only the log may differ. *)
Definition same_session (w w' : world) : Prop :=
  w_conn w' = w_conn w /\ w_opened w' = w_opened w /\ w_closed w' = w_closed w.

Lemma get_status_code_session (code : string) (w : world) :
  same_session w (snd (get_status_code_from_code_response code w)).
Proof.
  unfold same_session. rewrite get_status_code_unfold.
  destruct (last_valid_line code) as [l|]; [|auto].
  destruct (py_split_ws l) as [|tok ?]; [auto|].
  destruct (py_int_opt tok) as [a|]; [|auto].
  destruct (status_from_first_digits code) as [b|]; [|auto].
  destruct (Z.eqb a b); simpl; auto.
Qed.

(** [m.__getitem__] on the verb table reaches [retr] only for RETR and GET. *)
Lemma func_table_retr_keys (m : string) :
  lookup_str m func_table = Some Hretr -> m = "RETR" \/ m = "GET".
Proof.
  unfold func_table; simpl.
  destruct (String.eqb_spec m "LIST"); [discriminate|].
  destruct (String.eqb_spec m "RETR"); [auto|].
  destruct (String.eqb_spec m "STOR"); [discriminate|].
  destruct (String.eqb_spec m "NLST"); [discriminate|].
  destruct (String.eqb_spec m "GET"); [auto|discriminate].
Qed.

Section Extras.

Variable urlparse : string -> parsed_url.
Variable sftp_connect : option string -> Z -> option string -> option string -> option exc.
Variable sftp_getfo : conn -> string -> res (list byte).
Variable run_hook : string -> response -> res (option response).

Local Abbreviation send := (SFTPAdapter.send urlparse sftp_connect sftp_getfo run_hook).
Local Abbreviation retr := (SFTPAdapter.retr sftp_getfo run_hook).
Local Abbreviation retr_try := (SFTPAdapter.retr_try sftp_getfo run_hook).
Local Abbreviation call_handler :=
  (SFTPAdapter.call_handler sftp_getfo run_hook).
Local Abbreviation dispatch_hook := (SFTPAdapter.dispatch_hook run_hook).
Local Abbreviation build_response := (SFTPAdapter.build_response run_hook).
Local Abbreviation build_binary_response :=
  (SFTPAdapter.build_binary_response run_hook).

Lemma build_response_session req data code enc w :
  same_session w (snd (build_response req data code enc w)).
Proof.
  unfold SFTPAdapter.build_response, bind at 1.
  pose proof (get_status_code_session code w) as H.
  destruct (get_status_code_from_code_response code w) as [[a|e] w1]; simpl in *;
    [|exact H].
  rewrite dispatch_hook_state. exact H.
Qed.

Lemma retr_try_session path req w : same_session w (snd (retr_try path req w)).
Proof.
  unfold SFTPAdapter.retr_try, bind at 1, get_conn.
  destruct (w_conn w) as [c|]; [|repeat split].
  unfold bind at 1, SFTPAdapter.getfo.
  destruct (sftp_getfo c path) as [bs|e]; [|repeat split].
  unfold ret at 1, bind at 1, SFTPAdapter.build_binary_response.
  pose proof (build_response_session req (bio_write bs bytes_io_new) "226" None w) as H.
  destruct (build_response req (bio_write bs bytes_io_new) "226" None w)
    as [[r|e] w1]; exact H.
Qed.

Lemma retr_catch_session path req w :
  same_session w
    (snd (try_except (retr_try path req) (fun e => isinstance e COSError)
            (fun e => log_warning SFTPAdapter.get_failed_msg
                        [AStr path; SFTPAdapter.errno_arg e] ;;; ret None) w)).
Proof.
  unfold try_except. pose proof (retr_try_session path req w) as H.
  destruct (retr_try path req w) as [[a|e] w1]; [exact H|].
  destruct (isinstance e COSError); [|exact H].
  destruct H as (H1 & H2 & H3). unfold same_session. simpl. auto.
Qed.

(** [retr] changes neither [self.conn] nor the opened sessions, and closes
    nothing but the session held in [self.conn], at most once. *)
Lemma retr_closes (path : string) (req : request) (w : world) :
  w_conn (snd (retr path req w)) = w_conn w
  /\ w_opened (snd (retr path req w)) = w_opened w
  /\ (w_closed (snd (retr path req w)) = w_closed w
      \/ exists c, w_conn w = Some c
         /\ w_closed (snd (retr path req w)) = conn_id c :: w_closed w).
Proof.
  pose proof (retr_catch_session path req w) as T.
  remember (snd (retr path req w)) as w' eqn:Ew.
  unfold SFTPAdapter.retr, bind at 1 in Ew.
  destruct (try_except _ _ _ w) as [[o|e] w1]; simpl in T, Ew;
    destruct T as (T1 & T2 & T3); [|subst w'; auto].
  unfold bind at 1, get_conn in Ew. rewrite T1 in Ew.
  destruct (w_conn w) as [c|]; simpl in Ew; subst w'; simpl; [|auto].
  split; [congruence|]. split; [congruence|].
  right. exists c. split; [reflexivity|congruence].
Qed.

(** An OS-level error of the fetch, whatever its errno. *)
Lemma retr_fetch_os_error (path : string) (req : request) (w : world) (c : conn)
    (errno : option Z) :
  w_conn w = Some c -> sftp_getfo c path = Raise (OSError errno) ->
  retr path req w
  = (Ok None, after_close (snd (log_warning SFTPAdapter.get_failed_msg
                                 [AStr path; SFTPAdapter.errno_arg (OSError errno)] w)) c).
Proof.
  intros Hc Hget.
  unfold SFTPAdapter.retr, SFTPAdapter.retr_try, try_except, bind, get_conn.
  rewrite Hc. unfold SFTPAdapter.getfo. rewrite Hget. simpl. rewrite Hc.
  reflexivity.
Qed.

(** A successful fetch with no response hook to run. *)
Lemma retr_fetch_ok_no_hook (path : string) (req : request) (w : world) (c : conn)
    (bs : list byte) :
  w_conn w = Some c -> sftp_getfo c path = Ok bs ->
  (lookup_str "response" (req_hooks req) = None
   \/ lookup_str "response" (req_hooks req) = Some []) ->
  retr path req w = (Ok (Some (response_226 req (bio_write bs bytes_io_new))),
                     after_close w c).
Proof.
  intros Hc Hget Hh.
  unfold SFTPAdapter.retr, try_except, bind at 1.
  unfold SFTPAdapter.retr_try, bind at 1, get_conn. rewrite Hc.
  unfold bind at 1, SFTPAdapter.getfo. rewrite Hget. unfold ret at 1.
  unfold bind at 1. rewrite build_binary_response_226.
  unfold SFTPAdapter.dispatch_hook.
  destruct Hh as [Hh|Hh]; rewrite Hh; simpl;
    unfold get_conn, bind; rewrite Hc; reflexivity.
Qed.

(** X4: [build_response] reads the status code before anything else: when
    the extractor raises, the error propagates with the world unchanged and
    no hook runs; otherwise the hooks receive, in the state left by the
    extractor, a response with that status code, the given encoding, the
    request and its URL, and the data rewound to offset 0 whatever its
    position. *)
Theorem build_response_status_before_hooks (req : request) (data : bytes_io)
    (code : string) (enc : option string) (w : world) :
  (forall e, fst (get_status_code_from_code_response code w) = Raise e ->
     build_response req data code enc w = (Raise e, w))
  /\ (forall a w1, get_status_code_from_code_response code w = (Ok a, w1) ->
       build_response req data code enc w
       = dispatch_hook "response" (req_hooks req)
           {| resp_encoding := enc; resp_raw := BytesIO (bio_buf data) 0;
              resp_url := req_url req; resp_request := req;
              resp_status_code := a |} w1).
Proof.
  split.
  - intros e He. unfold SFTPAdapter.build_response, bind at 1.
    assert (Hw : snd (get_status_code_from_code_response code w) = w).
    { revert He. rewrite get_status_code_unfold.
      destruct (last_valid_line code) as [l|]; [|auto].
      destruct (py_split_ws l) as [|tok ?]; [auto|].
      destruct (py_int_opt tok) as [a|]; [|auto].
      destruct (status_from_first_digits code) as [b|]; [|auto].
      destruct (Z.eqb a b); discriminate. }
    destruct (get_status_code_from_code_response code w) as [r w1].
    simpl in He, Hw. subst. reflexivity.
  - intros a w1 E. unfold SFTPAdapter.build_response, bind at 1. rewrite E.
    reflexivity.
Qed.

(** X5: called with no session in [self.conn], [retr] raises
    AttributeError out of the [try] (it is not an OS error) and changes
    nothing: no log record, no close. *)
Theorem retr_without_session_raises (path : string) (req : request) (w : world)
    (Hc : w_conn w = None) :
  retr path req w = (Raise (AttributeError "conn"), w).
Proof.
  unfold SFTPAdapter.retr, SFTPAdapter.retr_try, try_except, bind, get_conn.
  rewrite Hc. reflexivity.
Qed.

(** X6: an OS-level error raised without an errno is handled like any
    other: [retr] returns [None], logs the path with [None] in the errno
    slot, and closes the session once. *)
Theorem retr_os_error_without_errno (path : string) (req : request) (w : world)
    (c : conn) (Hc : w_conn w = Some c)
    (Hget : sftp_getfo c path = Raise (OSError None)) :
  retr path req w
  = (Ok None, after_close (snd (log_warning SFTPAdapter.get_failed_msg
                                 [AStr path; ANone] w)) c).
Proof. exact (retr_fetch_os_error path req w c None Hc Hget). Qed.

(** X7: the [try] of [retr] also covers the response hooks: after a
    successful fetch, an OS-level error raised by a hook makes [retr] return
    [None], log the failure and close the session, while any other error of
    a hook propagates and leaves the session open. *)
Theorem retr_hook_error (path : string) (req : request) (w : world) (c : conn)
    (bs : list byte) (e : exc)
    (Hc : w_conn w = Some c) (Hget : sftp_getfo c path = Ok bs)
    (Hhook : fst (dispatch_hook "response" (req_hooks req)
                    (response_226 req (bio_write bs bytes_io_new)) w) = Raise e) :
  (isinstance e COSError = true ->
   retr path req w
   = (Ok None, after_close (snd (log_warning SFTPAdapter.get_failed_msg
                                  [AStr path; SFTPAdapter.errno_arg e] w)) c))
  /\ (isinstance e COSError = false -> retr path req w = (Raise e, w)).
Proof.
  pose proof (dispatch_hook_state run_hook "response" (req_hooks req)
                (response_226 req (bio_write bs bytes_io_new)) w) as Hw.
  destruct (dispatch_hook "response" (req_hooks req)
              (response_226 req (bio_write bs bytes_io_new)) w) as [r w1] eqn:E.
  simpl in Hhook, Hw. subst r w1.
  assert (Htry : retr_try path req w = (Raise e, w)).
  { unfold SFTPAdapter.retr_try, bind at 1, get_conn. rewrite Hc.
    unfold bind at 1, SFTPAdapter.getfo. rewrite Hget. unfold ret at 1.
    unfold bind at 1. rewrite build_binary_response_226, E. reflexivity. }
  split; intro He; unfold SFTPAdapter.retr, try_except, bind at 1; rewrite Htry, He.
  - simpl. unfold get_conn, bind. rewrite Hc. reflexivity.
  - reflexivity.
Qed.

(** X8: a call of [send] closes at most one session, only the one it has
    just opened, and only for the methods RETR and GET: a session left open
    by an earlier call is never closed by a later one. *)
Theorem send_closes_only_its_session (req : request) (w : world) :
  w_closed (snd (send req w)) = w_closed w
  \/ ((req_method req = "RETR" \/ req_method req = "GET")
      /\ w_closed (snd (send req w)) = conn_id (new_conn urlparse req w) :: w_closed w).
Proof.
  remember (snd (send req w)) as w' eqn:Ew.
  destruct (pu_path (urlparse (req_url req))) as [[|c0 q]|] eqn:Hpath.
  - left. unfold SFTPAdapter.send, bind at 1 in Ew. rewrite Hpath in Ew.
    subst w'. reflexivity.
  - destruct (connect_result urlparse sftp_connect req) as [e|] eqn:Hc.
    + left. rewrite (send_connect_fails urlparse sftp_connect sftp_getfo run_hook
                       req w (String c0 q) e Hpath) in Ew by easy.
      subst w'. reflexivity.
    + rewrite (send_reaches_lookup urlparse sftp_connect sftp_getfo run_hook
                 req w (String c0 q) Hpath) in Ew by easy.
      set (path := strip_path (String c0 q)) in Ew.
      unfold bind at 1, func_table_lookup in Ew.
      destruct (lookup_str (req_method req) func_table) as [h|] eqn:Hl;
        [|left; subst w'; reflexivity].
      unfold ret at 1 in Ew.
      destruct h; simpl call_handler in Ew;
        try (left; subst w'; reflexivity).
      pose proof (retr_closes path req
                    (after_open w (new_conn urlparse req w))) as (_ & _ & Hcl).
      unfold bind at 1 in Ew.
      destruct (retr path req
                  (after_open w (new_conn urlparse req w))) as [[o|e] w2].
      all: simpl in Hcl, Ew; subst w'; destruct Hcl as [Hcl | (c & Hcc & Hcl)];
        [left; exact Hcl
        | right; injection Hcc as <-; split; [now apply func_table_retr_keys | exact Hcl]].
  - left. unfold SFTPAdapter.send, bind at 1 in Ew. rewrite Hpath in Ew.
    subst w'. reflexivity.
Qed.

(** X9: the session [send] opens is opened with the parsed host, user name
    and password, on the parsed port when there is one other than 0, and on
    port 22 when the URL gives port 0 ([parsed.port or 22]). *)
Theorem send_session_port (req : request) (w : world) (c : conn) (p : Z)
    (Hport : pu_port (urlparse (req_url req)) = Some p)
    (Hop : w_opened (snd (send req w)) = c :: w_opened w) :
  conn_host c = pu_hostname (urlparse (req_url req))
  /\ conn_username c = pu_username (urlparse (req_url req))
  /\ conn_password c = pu_password (urlparse (req_url req))
  /\ (p <> 0%Z -> conn_port c = p)
  /\ (p = 0%Z -> conn_port c = 22%Z).
Proof.
  destruct (send_opened urlparse sftp_connect sftp_getfo run_hook req w) as [E|E];
    rewrite Hop in E.
  - exfalso. apply (f_equal (@length conn)) in E. simpl in E. lia.
  - injection E as ->. unfold new_conn. simpl. rewrite Hport. simpl.
    repeat split; intro Hp.
    + apply Z.eqb_neq in Hp. now rewrite Hp.
    + subst p. reflexivity.
Qed.

(** X10: [send] hands the handler the URL path with exactly one leading
    '/' removed: a path "/q" reaches it as "q" (so "//x" as "/x"), and a
    path that does not start with '/' reaches it unchanged. *)
Theorem send_strips_one_leading_slash (req : request) (w : world) (c0 : ascii)
    (q : string)
    (Hpath : pu_path (urlparse (req_url req)) = Some (String c0 q))
    (Hc : connect_result urlparse sftp_connect req = None) :
  send req w
  = (h <- func_table_lookup (req_method req) ;;
     resp <- call_handler h (if Ascii.eqb c0 "/" then q else String c0 q) req ;;
     ret resp) (after_open w (new_conn urlparse req w)).
Proof.
  rewrite (send_reaches_lookup urlparse sftp_connect sftp_getfo run_hook
             req w (String c0 q) Hpath) by easy.
  unfold strip_path. destruct (Ascii.eqb c0 "/"); reflexivity.
Qed.

(** X11: a RETR or GET request whose fetch fails with an OS-level error
    returns [None] from [send]: the session opened for it is closed once,
    and the warning names the path as handed to [retr]. *)
Theorem send_retr_os_error (req : request) (w : world) (p : string)
    (errno : option Z)
    (Hm : req_method req = "RETR" \/ req_method req = "GET")
    (Hpath : pu_path (urlparse (req_url req)) = Some p) (Hp : p <> EmptyString)
    (Hc : connect_result urlparse sftp_connect req = None)
    (Hget : sftp_getfo (new_conn urlparse req w) (strip_path p)
            = Raise (OSError errno)) :
  send req w
  = (Ok None,
     after_close
       (snd (log_warning SFTPAdapter.get_failed_msg
               [AStr (strip_path p); SFTPAdapter.errno_arg (OSError errno)]
               (after_open w (new_conn urlparse req w))))
       (new_conn urlparse req w)).
Proof.
  rewrite (send_reaches_lookup urlparse sftp_connect sftp_getfo run_hook
             req w p Hpath Hp Hc).
  set (path := strip_path p) in *.
  assert (Hl : lookup_str (req_method req) func_table = Some Hretr)
    by (destruct Hm as [-> | ->]; reflexivity).
  unfold bind at 1, func_table_lookup. rewrite Hl. unfold ret at 1.
  cbv beta iota. unfold SFTPAdapter.call_handler, bind at 1.
  rewrite (retr_fetch_os_error path req _ (new_conn urlparse req w) errno)
    by (reflexivity || exact Hget).
  reflexivity.
Qed.

(** X12: a RETR or GET request whose fetch succeeds, with no response hook
    registered, returns from [send] a response with status code 226,
    encoding [None] and the fetched bytes at offset 0, and the session opened
    for it is closed once. *)
Theorem send_retr_success (req : request) (w : world) (p : string)
    (bs : list byte)
    (Hm : req_method req = "RETR" \/ req_method req = "GET")
    (Hpath : pu_path (urlparse (req_url req)) = Some p) (Hp : p <> EmptyString)
    (Hc : connect_result urlparse sftp_connect req = None)
    (Hget : sftp_getfo (new_conn urlparse req w) (strip_path p) = Ok bs)
    (Hh : lookup_str "response" (req_hooks req) = None
          \/ lookup_str "response" (req_hooks req) = Some []) :
  send req w
  = (Ok (Some {| resp_encoding := None; resp_raw := BytesIO bs 0;
                 resp_url := req_url req; resp_request := req;
                 resp_status_code := 226 |}),
     after_close (after_open w (new_conn urlparse req w)) (new_conn urlparse req w)).
Proof.
  rewrite (send_reaches_lookup urlparse sftp_connect sftp_getfo run_hook
             req w p Hpath Hp Hc).
  set (path := strip_path p) in *.
  assert (Hl : lookup_str (req_method req) func_table = Some Hretr)
    by (destruct Hm as [-> | ->]; reflexivity).
  unfold bind at 1, func_table_lookup. rewrite Hl. unfold ret at 1.
  cbv beta iota. unfold SFTPAdapter.call_handler, bind at 1.
  rewrite (retr_fetch_ok_no_hook path req _ (new_conn urlparse req w) bs)
    by (reflexivity || exact Hget || exact Hh).
  reflexivity.
Qed.

End Extras.

(** ** Witnesses of the further properties *)

Lemma get_status_code_returns_last_line_reading_witness :
  fst (get_status_code_from_code_response ex_conflict_code w0) = Ok 226%Z.
Proof.
  apply (proj2 (get_status_code_returns_last_line_reading ex_conflict_code w0 226%Z)).
  split; [vm_compute; reflexivity | vm_compute; discriminate].
Defined.

Lemma get_status_code_effects_witness :
  w_log ex_conflict_world
  = [LogRecord WARNING inconsistent_msg [AStr ex_conflict_code; AInt 226; AInt 200]].
Proof.
  refine (eq_trans (proj2 (proj2 (proj2 (get_status_code_effects ex_conflict_code w0
                                           ex_conflict_world (Ok 226%Z) _)))) _);
    vm_compute; reflexivity.
Defined.

Lemma get_status_code_trailing_newlines_witness :
  fst (get_status_code_from_code_response
         (ex_conflict_code ++ String "010" (String "010" EmptyString)) w0) = Ok 226%Z
  <-> fst (get_status_code_from_code_response ex_conflict_code w0) = Ok 226%Z.
Proof.
  refine (proj2 (proj2 (get_status_code_trailing_newlines ex_conflict_code
                          (String "010" (String "010" EmptyString)) w0 _)) 226%Z).
  reflexivity.
Defined.

Lemma build_response_status_before_hooks_witness :
  SFTPAdapter.build_response ex_no_hook (ex_request "RETR") (BytesIO ex_payload 3)
    ex_conflict_code None w0
  = SFTPAdapter.dispatch_hook ex_no_hook "response" [("response", [])]
      {| resp_encoding := None; resp_raw := BytesIO ex_payload 0;
         resp_url := ex_url; resp_request := ex_request "RETR";
         resp_status_code := 226 |} ex_conflict_world.
Proof.
  refine (proj2 (build_response_status_before_hooks ex_no_hook (ex_request "RETR")
                   (BytesIO ex_payload 3) ex_conflict_code None w0)
            226%Z ex_conflict_world _).
  vm_compute. reflexivity.
Defined.

Lemma retr_without_session_raises_witness :
  SFTPAdapter.retr ex_getfo_ok ex_no_hook "pub/file.txt" (ex_request "RETR") w0
  = (Raise (AttributeError "conn"), w0).
Proof.
  apply (retr_without_session_raises ex_getfo_ok ex_no_hook). reflexivity.
Defined.

Lemma retr_os_error_without_errno_witness :
  SFTPAdapter.retr ex_getfo_no_errno ex_no_hook "pub/file.txt" (ex_request "RETR")
    ex_world_open
  = (Ok None, after_close (snd (log_warning SFTPAdapter.get_failed_msg
                                 [AStr "pub/file.txt"; ANone] ex_world_open)) ex_conn).
Proof.
  apply (retr_os_error_without_errno ex_getfo_no_errno ex_no_hook); reflexivity.
Defined.

Lemma retr_hook_error_witness :
  SFTPAdapter.retr ex_getfo_ok ex_hook_eio "pub/file.txt" ex_request_hooked
    ex_world_open
  = (Ok None, after_close (snd (log_warning SFTPAdapter.get_failed_msg
                                 [AStr "pub/file.txt"; AInt 5] ex_world_open)) ex_conn).
Proof.
  refine (proj1 (retr_hook_error ex_getfo_ok ex_hook_eio "pub/file.txt"
                   ex_request_hooked ex_world_open ex_conn ex_payload
                   (OSError (Some 5%Z)) _ _ _) _);
    vm_compute; reflexivity.
Defined.

Lemma send_session_port_witness :
  conn_host (Conn 0 (Some "example.com") 2222 None None) = Some "example.com"
  /\ conn_username (Conn 0 (Some "example.com") 2222 None None) = None
  /\ conn_password (Conn 0 (Some "example.com") 2222 None None) = None
  /\ (2222%Z <> 0%Z -> conn_port (Conn 0 (Some "example.com") 2222 None None) = 2222%Z)
  /\ (2222%Z = 0%Z -> conn_port (Conn 0 (Some "example.com") 2222 None None) = 22%Z).
Proof.
  apply (send_session_port ex_urlparse_port ex_connect_ok ex_getfo_ok ex_no_hook
           ex_request_port w0); vm_compute; reflexivity.
Defined.

Lemma send_strips_one_leading_slash_witness :
  SFTPAdapter.send ex_urlparse_port ex_connect_ok ex_getfo_ok ex_no_hook
    ex_request_port w0
  = (h <- func_table_lookup "RETR" ;;
     resp <- SFTPAdapter.call_handler ex_getfo_ok ex_no_hook h "/srv/f"
               ex_request_port ;;
     ret resp)
      (after_open w0 (new_conn ex_urlparse_port ex_request_port w0)).
Proof.
  apply (send_strips_one_leading_slash ex_urlparse_port ex_connect_ok ex_getfo_ok
           ex_no_hook ex_request_port w0 "/" "/srv/f"); reflexivity.
Defined.

Lemma send_retr_os_error_witness :
  SFTPAdapter.send ex_urlparse ex_connect_ok ex_getfo_enoent ex_no_hook
    (ex_request "GET") w0
  = (Ok None,
     after_close (snd (log_warning SFTPAdapter.get_failed_msg
                         [AStr "pub/file.txt"; AInt 2] ex_world_open)) ex_conn).
Proof.
  apply (send_retr_os_error ex_urlparse ex_connect_ok ex_getfo_enoent ex_no_hook
           (ex_request "GET") w0 "/pub/file.txt" (Some 2%Z));
    first [right; reflexivity | discriminate | reflexivity].
Defined.

Lemma send_retr_success_witness :
  SFTPAdapter.send ex_urlparse ex_connect_ok ex_getfo_ok ex_no_hook
    (ex_request "RETR") w0
  = (Ok (Some {| resp_encoding := None; resp_raw := BytesIO ex_payload 0;
                 resp_url := ex_url; resp_request := ex_request "RETR";
                 resp_status_code := 226 |}),
     after_close ex_world_open ex_conn).
Proof.
  apply (send_retr_success ex_urlparse ex_connect_ok ex_getfo_ok ex_no_hook
           (ex_request "RETR") w0 "/pub/file.txt" ex_payload);
    first [left; reflexivity | right; reflexivity | discriminate | reflexivity].
Defined.
